(** * Hyperparameter tuning notebook (kerascont/version2_jason.ipynb)

    A shallow embedding of the notebook's code cells.  The notebook is glue
    code over external collaborators (docker, S3, the SageMaker tuning
    service, Keras utilities).  Every external call is recorded as an
    [event] in a trace, and what the collaborators answer is supplied by a
    [Platform].  Python exceptions are values of [exn]. *)

From Stdlib Require Import ZArith String Ascii List Bool Lia.
From stdpp Require Import base option list strings pretty gmap.

Local Open Scope string_scope.
Local Open Scope list_scope.
Local Open Scope Z_scope.

(** ** Python scalars *)

Module Float.

(** An IEEE-754 binary64 number.  A finite one is
    [(-1)^neg * mant * 2^expo] with [0 <= mant < 2^53] and
    [-1074 <= expo <= 971]; normal numbers have [2^52 <= mant]. *)
Inductive t :=
| Finite (neg : bool) (mant expo : Z)
| Inf (neg : bool)
| NaN.

Definition eqb (a b : t) : bool :=
  match a, b with
  | Finite s m e, Finite s' m' e' => Bool.eqb s s' && (m =? m') && (e =? e')
  | Inf s, Inf s' => Bool.eqb s s'
  | _, _ => false
  end.

(** The rational [(num/den) / 2^e] as a fraction. *)
Definition scale2 (num den e : Z) : Z * Z :=
  if 0 <=? e then (num, den * 2 ^ e) else (num * 2 ^ (- e), den).

(** Round [n/d] to the nearest integer, ties to even. *)
Definition round_half_even (n d : Z) : Z :=
  let q := n / d in
  let r := n mod d in
  if 2 * r <? d then q
  else if d <? 2 * r then q + 1
  else if Z.even q then q else q + 1.

(** [floor (log2 (num/den))] for positive [num], [den]. *)
Definition ilog2 (num den : Z) : Z :=
  let l := Z.log2 num - Z.log2 den in
  let '(n, d) := scale2 num den l in
  if d <=? n then l else l - 1.

(** Correctly rounded conversion of the non-negative rational [num/den]
    (round to nearest, ties to even). *)
Definition of_fraction (sign : bool) (num den : Z) : t :=
  if num =? 0 then Finite sign 0 (-1074)
  else
    let e := Z.max (ilog2 num den - 52) (-1074) in
    let '(n, d) := scale2 num den e in
    let m := round_half_even n d in
    let '(m, e) := if m =? 2 ^ 53 then (2 ^ 52, e + 1) else (m, e) in
    if 971 <? e then Inf sign else Finite sign m e.

(** The value of a decimal literal [digits * 10^exp10], as the Python
    tokenizer and [float()] read it. *)
Definition of_decimal (sign : bool) (digits exp10 : Z) : t :=
  if 0 <=? exp10 then of_fraction sign (digits * 10 ^ exp10) 1
  else of_fraction sign digits (10 ^ (- exp10)).

(** [10^k <= num/den] *)
Definition pow10_le (k num den : Z) : bool :=
  if 0 <=? k then den * 10 ^ k <=? num else den <=? num * 10 ^ (- k).

(** [floor (log10 (num/den))] for positive [num], [den]: the binary
    logarithm gives an estimate that is off by at most one. *)
Definition ilog10 (num den : Z) : Z :=
  let k0 := (ilog2 num den * 30103) / 100000 in
  if pow10_le (k0 + 2) num den then k0 + 2
  else if pow10_le (k0 + 1) num den then k0 + 1
  else if pow10_le k0 num den then k0
  else k0 - 1.

(** The distance [|c * 10^e10 - num/den|] as a fraction. *)
Definition dist (c e10 num den : Z) : Z * Z :=
  if 0 <=? e10 then (Z.abs (c * 10 ^ e10 * den - num), den)
  else (Z.abs (c * den - num * 10 ^ (- e10)), den * 10 ^ (- e10)).

Definition frac_leb (a b : Z * Z) : bool :=
  fst a * snd b <=? fst b * snd a.

(** The decimal [(digits, exp10)] with [n] significant digits that reads
    back as the positive float [mant * 2^expo] and is closest to it, if
    there is one. *)
Definition candidate (mant expo n : Z) : option (Z * Z) :=
  let '(num, den) := scale2 mant 1 (- expo) in
  let e10 := ilog10 num den - n + 1 in
  let lo := if 0 <=? e10 then num / (den * 10 ^ e10)
            else (num * 10 ^ (- e10)) / den in
  let hi := lo + 1 in
  let ok c := eqb (of_decimal false c e10) (Finite false mant expo) in
  match ok lo, ok hi with
  | true, true =>
      if frac_leb (dist lo e10 num den) (dist hi e10 num den)
      then Some (lo, e10) else Some (hi, e10)
  | true, false => Some (lo, e10)
  | false, true => Some (hi, e10)
  | false, false => None
  end.

(** The shortest decimal that reads back as [mant * 2^expo]; seventeen
    digits always suffice. *)
Fixpoint shortest_from (mant expo n : Z) (fuel : nat) : Z * Z :=
  match fuel with
  | O => (mant, 0)
  | S fuel' =>
      match candidate mant expo n with
      | Some c => c
      | None => shortest_from mant expo (n + 1) fuel'
      end
  end.

Definition shortest (mant expo : Z) : Z * Z := shortest_from mant expo 1 17.

End Float.

(** ** Python values and [str()] *)

Module Py.

(** The scalar values that occur as hyperparameter values. *)
Inductive value :=
| Str (s : string)
| Int (n : Z)
| Bool (b : bool)
| Float (x : Float.t).

Definition is_str (v : value) : bool :=
  match v with Str _ => true | _ => false end.

Fixpoint zeros (n : nat) : string :=
  match n with O => "" | S n' => String "0" (zeros n') end.

(** Drop the trailing zeros of a positive number, counting them. *)
Fixpoint strip_zeros (fuel : nat) (c e10 : Z) : Z * Z :=
  match fuel with
  | O => (c, e10)
  | S fuel' =>
      if (c mod 10 =? 0) && negb (c =? 0)
      then strip_zeros fuel' (c / 10) (e10 + 1)
      else (c, e10)
  end.

(** The exponent part of a float in exponent notation: a sign and at
    least two digits. *)
Definition exponent (e : Z) : string :=
  let a := pretty (Z.abs e) in
  (if e <? 0 then "e-" else "e+") +:+ (if Z.abs e <? 10 then "0" +:+ a else a).

(** [repr] of a float (CPython's [float_repr]): the shortest digit string
    that reads back as the same float; exponent notation when the decimal
    point would fall more than 16 digits to the right of the first digit
    or more than 3 zeros to its left; [.0] added to integers in positional
    notation. *)
Definition finite_repr (mant expo : Z) : string :=
  let '(c, e10) :=
    if mant =? 0 then (0, 0)
    else let '(c, e10) := Float.shortest mant expo in strip_zeros 17 c e10 in
  let digits := pretty c in
  let ndigits := Z.of_nat (String.length digits) in
  let decpt := ndigits + e10 in
  if (decpt <=? -4) || (16 <? decpt) then
    String.substring 0 1 digits
      +:+ (if 1 <? ndigits
           then "." +:+ String.substring 1 (String.length digits - 1) digits
           else "")
      +:+ exponent (decpt - 1)
  else if decpt <=? 0 then
    "0." +:+ zeros (Z.to_nat (- decpt)) +:+ digits
  else if ndigits <=? decpt then
    digits +:+ zeros (Z.to_nat (decpt - ndigits)) +:+ ".0"
  else
    String.substring 0 (Z.to_nat decpt) digits +:+ "."
      +:+ String.substring (Z.to_nat decpt) (String.length digits - Z.to_nat decpt) digits.

Definition float_repr (x : Float.t) : string :=
  match x with
  | Float.Finite s mant expo => (if s then "-" else "") +:+ finite_repr mant expo
  | Float.Inf s => if s then "-inf" else "inf"
  | Float.NaN => "nan"
  end.

(** Python's [str()] on a scalar. *)
Definition str (v : value) : string :=
  match v with
  | Str s => s
  | Int n => pretty n
  | Bool true => "True"
  | Bool false => "False"
  | Float x => float_repr x
  end.

End Py.


(** Python's dict display [{k1: v1, k2: v2, ...}] and [dict(k1=v1, ...)]:
    entries are stored left to right, a later entry for the same key
    replaces the earlier one. *)
Definition dict {V} (entries : list (string * V)) : gmap string V :=
  foldl (fun m kv => <[kv.1 := kv.2]> m) ∅ entries.

(** ** Exceptions *)

Inductive exn :=
| CalledProcessError (returncode : Z) (cmd : list string)
| OSError (msg : string)
| ValueError
| IndexError
| KeyError (key : string)
| ClientError (msg : string).

(** ** The two documents of the submission call

    Each record is one dict display of the notebook; the fields are its
    keys.  Modules keep keys such as [Name] apart. *)

Module ParameterRange.
(** An entry of [ContinuousParameterRanges] or [IntegerParameterRanges]. *)
Record t := Make { MaxValue : Py.value; MinValue : Py.value; Name : string }.
End ParameterRange.

Module CategoricalParameterRange.
Record t := Make { Name : string; Values : list Py.value }.
End CategoricalParameterRange.

Module ParameterRanges.
Record t := Make {
  CategoricalParameterRanges : list CategoricalParameterRange.t;
  ContinuousParameterRanges : list ParameterRange.t;
  IntegerParameterRanges : list ParameterRange.t }.
End ParameterRanges.

Module ResourceLimits.
Record t := Make {
  MaxNumberOfTrainingJobs : Z;
  MaxParallelTrainingJobs : Z }.
End ResourceLimits.

Module Objective.
Record t := Make { MetricName : string; Type_ : string }.
End Objective.

Module TuningJobConfig.
Record t := Make {
  ParameterRanges : ParameterRanges.t;
  ResourceLimits : ResourceLimits.t;
  Strategy : string;
  HyperParameterTuningJobObjective : Objective.t }.
End TuningJobConfig.

Module MetricDefinition.
Record t := Make { Name : string; Regex : string }.
End MetricDefinition.

Module AlgorithmSpecification.
Record t := Make {
  MetricDefinitions : list MetricDefinition.t;
  TrainingImage : string;
  TrainingInputMode : string }.
End AlgorithmSpecification.

Module S3DataSource.
Record t := Make {
  S3DataType : string;
  S3Uri : string;
  S3DataDistributionType : string }.
End S3DataSource.

Module DataSource.
Record t := Make { S3DataSource : S3DataSource.t }.
End DataSource.

Module Channel.
(** An entry of [InputDataConfig]. *)
Record t := Make {
  ChannelName : string;
  DataSource : DataSource.t;
  CompressionType : string;
  RecordWrapperType : string }.
End Channel.

Module OutputDataConfig.
Record t := Make { S3OutputPath : string }.
End OutputDataConfig.

Module ResourceConfig.
Record t := Make {
  InstanceCount : Z;
  InstanceType : string;
  VolumeSizeInGB : Z }.
End ResourceConfig.

Module StoppingCondition.
Record t := Make { MaxRuntimeInSeconds : Z }.
End StoppingCondition.

Module TrainingJobDefinition.
Record t := Make {
  AlgorithmSpecification : AlgorithmSpecification.t;
  InputDataConfig : list Channel.t;
  OutputDataConfig : OutputDataConfig.t;
  ResourceConfig : ResourceConfig.t;
  RoleArn : string;
  StaticHyperParameters : gmap string Py.value;
  StoppingCondition : StoppingCondition.t }.
End TrainingJobDefinition.

(** ** External calls and the trace *)

(** A NumPy array of rank two, row by row. *)
Definition ndarray := list (list Z).

(** One external call made by the notebook, with its arguments. *)
Inductive event :=
| subprocess_call (argv : list string)
| cifar10_load_data
| tempfile_mkdtemp
| savez_compressed (file : string) (x y : ndarray)
| upload_data (path bucket key_prefix : string)
| estimator_fit (image role output_path : string)
    (train_instance_count : Z) (train_instance_type : string)
    (hyperparameters : gmap string Py.value) (inputs : gmap string string)
| time_gmtime
| create_hyper_parameter_tuning_job
    (HyperParameterTuningJobName : string)
    (HyperParameterTuningJobConfig : TuningJobConfig.t)
    (TrainingJobDefinition : TrainingJobDefinition.t).

Definition trace := list event.

(** What the outside world answers.  Every answer may depend on the calls
    made so far; [inl] is a raised exception. *)
Class Platform := {
  (** the globals of the environment cell *)
  bucket : string;
  role : string;
  region : string;
  account : string;
  (** [shlex.split] *)
  shlex_split : string -> exn + list string;
  (** exit status of a child process, or the failure to start it *)
  exit_status : list string -> trace -> exn + Z;
  (** [tf.keras.datasets.cifar10.load_data()]: images and labels of the
      two splits *)
  load_data : trace -> exn + ((ndarray * list Z) * (ndarray * list Z));
  mkdtemp : trace -> exn + string;
  savez : string -> ndarray -> ndarray -> trace -> exn + unit;
  (** [sagemaker_session.upload_data]: the S3 location of the upload *)
  uploaded : string -> string -> string -> trace -> exn + string;
  (** the local training run *)
  fitted : string -> gmap string Py.value -> gmap string string ->
           trace -> exn + unit;
  (** seconds since the epoch *)
  clock : trace -> Z;
  (** the tuning service's answer: the ARN of the new job *)
  created : string -> TuningJobConfig.t -> TrainingJobDefinition.t ->
            trace -> exn + string
}.

(** ** The monad of notebook code: exceptions over a trace *)

Definition M (A : Type) : Type := trace -> (exn + A) * trace.

Definition ret {A} (a : A) : M A := fun tr => (inr a, tr).

Definition raise {A} (e : exn) : M A := fun tr => (inl e, tr).

Definition bind {A B} (m : M A) (k : A -> M B) : M B :=
  fun tr =>
    match m tr with
    | (inl e, tr') => (inl e, tr')
    | (inr a, tr') => k a tr'
    end.

(** A pure computation that may raise. *)
Definition lift {A} (r : exn + A) : M A := fun tr => (r, tr).

(** An external call: it is made (and recorded) whether or not it raises. *)
Definition call {A} (e : event) (answer : trace -> exn + A) : M A :=
  fun tr => (answer tr, tr ++ [e]).

Notation "x <- m ;; k" := (bind m (fun x => k))
  (at level 100, m at next level, right associativity).
Notation "m ;;; k" := (bind m (fun _ => k))
  (at level 100, right associativity).

(** Unfold one layer of the monad. *)
Ltac run := unfold bind, call, lift, ret, raise; cbn beta iota.

(** From a run [Hrun : m tr = (r, tr ++ evs)], the calls [evs] it added. *)
Ltac new_events Hrun evs :=
  injection Hrun as _ Hrun; apply app_inv_head in Hrun; subst evs.

(** ** [time.gmtime] and [time.strftime] *)

Module Time.

Record struct_time := Make {
  tm_year : Z; tm_mon : Z; tm_mday : Z;
  tm_hour : Z; tm_min : Z; tm_sec : Z }.

(** Year, month and day of the proleptic Gregorian calendar for a day
    number counted from 1970-01-01. *)
Definition civil_from_days (days : Z) : Z * Z * Z :=
  let z := days + 719468 in
  let era := z / 146097 in
  let doe := z - era * 146097 in
  let yoe := (doe - doe / 1460 + doe / 36524 - doe / 146096) / 365 in
  let doy := doe - (365 * yoe + yoe / 4 - yoe / 100) in
  let mp := (5 * doy + 2) / 153 in
  let d := doy - (153 * mp + 2) / 5 + 1 in
  let m := if mp <? 10 then mp + 3 else mp - 9 in
  let y := yoe + era * 400 + (if m <=? 2 then 1 else 0) in
  (y, m, d).

(** [gmtime(secs)]: UTC broken-down time of [secs] seconds since the epoch. *)
Definition gmtime (secs : Z) : struct_time :=
  let '(y, m, d) := civil_from_days (secs / 86400) in
  let rem := secs mod 86400 in
  Make y m d (rem / 3600) (rem mod 3600 / 60) (rem mod 60).

Definition digit (n : Z) : ascii := ascii_of_N (48 + Z.to_N n).

(** The fields that the format ["%d-%H-%M-%S"] prints. *)
Definition day_and_time (t : struct_time) : Z * Z * Z * Z :=
  (tm_mday t, tm_hour t, tm_min t, tm_sec t).

(** A field printed as [%02d]. *)
Definition two_digits (n : Z) : string :=
  if (0 <=? n) && (n <? 100)
  then String (digit (n / 10)) (String (digit (n mod 10)) "")
  else pretty n.

(** The conversion specifications the notebook's format uses, and a few
    of their neighbours; [None] for any other. *)
Definition directive (c : ascii) (t : struct_time) : option string :=
  if Ascii.eqb c "d" then Some (two_digits (tm_mday t))
  else if Ascii.eqb c "H" then Some (two_digits (tm_hour t))
  else if Ascii.eqb c "M" then Some (two_digits (tm_min t))
  else if Ascii.eqb c "S" then Some (two_digits (tm_sec t))
  else if Ascii.eqb c "m" then Some (two_digits (tm_mon t))
  else if Ascii.eqb c "Y" then Some (pretty (tm_year t))
  else if Ascii.eqb c "%" then Some "%"
  else None.

(** [strftime(format, t)]: ordinary characters are copied, [%c] is
    replaced by the field it names. *)
Fixpoint strftime (format : string) (t : struct_time) : option string :=
  match format with
  | EmptyString => Some ""
  | String c rest =>
      if Ascii.eqb c "%" then
        match rest with
        | EmptyString => Some "%"
        | String d rest' =>
            match directive d t, strftime rest' t with
            | Some s, Some r => Some (s +:+ r)
            | _, _ => None
            end
        end
      else
        match strftime rest t with
        | Some r => Some (String c r)
        | None => None
        end
  end.

End Time.

(** ** [os.path.join] (POSIX) for two components *)

Fixpoint ends_with_slash (s : string) : bool :=
  match s with
  | EmptyString => false
  | String c EmptyString => Ascii.eqb c "/"
  | String _ rest => ends_with_slash rest
  end.

Definition os_path_join (a b : string) : string :=
  if String.prefix "/" b then b
  else if String.eqb a "" || ends_with_slash a then a +:+ b
  else a +:+ "/" +:+ b.

(** ** [tf.keras.utils.to_categorical]

    The Keras utility [upload_channel] calls, after the library's
    implementation: the labels are flattened, an [n] by [num_classes] array
    of zeros is allocated and [categorical[np.arange(n), y] = 1] sets one
    entry per row.  NumPy checks every index against the axis length and
    counts a negative index from the end.  The float32 entries 0.0 and 1.0
    are written 0 and 1. *)

Module Keras.

(** One row: [row[label] = 1] on a row of [num_classes] zeros. *)
Definition one_hot (num_classes label : Z) : exn + list Z :=
  if (label <? - num_classes) || (num_classes <=? label)
  then inl IndexError
  else
    let i := if label <? 0 then label + num_classes else label in
    inr (map (fun j => if j =? i then 1 else 0) (seqZ 0 num_classes)).

Fixpoint rows (num_classes : Z) (y : list Z) : exn + ndarray :=
  match y with
  | [] => inr []
  | label :: y' =>
      match one_hot num_classes label with
      | inl e => inl e
      | inr r =>
          match rows num_classes y' with
          | inl e => inl e
          | inr rs => inr (r :: rs)
          end
      end
  end.

Definition to_categorical (y : list Z) (num_classes : Z) : exn + ndarray :=
  let classes :=
    if num_classes =? 0 then
      match y with
      | [] => inl ValueError
      | l :: y' => inr (foldr Z.max l y' + 1)
      end
    else inr num_classes in
  match classes with
  | inl e => inl e
  | inr k =>
      if k <? 0 then inl ValueError
      else rows k y
  end.

End Keras.

(** ** The notebook's cells *)

(** The job name for a creation time given in seconds since the epoch:
    ['BYO-keras-tuningjob-' + strftime("%d-%H-%M-%S", gmtime())]. *)
Definition tuning_job_name_at (now : Z) : exn + string :=
  match Time.strftime "%d-%H-%M-%S" (Time.gmtime now) with
  | Some stamp => inr ("BYO-keras-tuningjob-" +:+ stamp)
  | None => inl ValueError
  end.

Section Notebook.

Context `{Platform}.

Definition prefix : string := "sagemaker/DEMO-hpo-keras-cifar10".

Definition NUM_CLASSES : Z := 10.

(** *** Building the image *)

Definition get_image_name (ecr_repository tensorflow_version_tag : string) : string :=
  ecr_repository +:+ ":tensorflow-" +:+ tensorflow_version_tag.

(** [subprocess.check_call]: run the command, wait for it, raise
    [CalledProcessError] with the exit status unless that is zero. *)
Definition check_call (argv : list string) : M Z :=
  retcode <- call (subprocess_call argv) (exit_status argv);;
  if retcode =? 0 then ret 0 else raise (CalledProcessError retcode argv).

(** The command line of [build_image]:
    ['docker build -t %s --build-arg VERSION=%s -f Dockerfile .' % (name, version)] *)
Definition build_image_cmd (name version : string) : string :=
  "docker build -t " +:+ name +:+ " --build-arg VERSION="
    +:+ version +:+ " -f Dockerfile .".

Definition build_image (name version : string) : M unit :=
  let cmd := build_image_cmd name version in
  argv <- lift (shlex_split cmd);;
  check_call argv;;;
  ret tt.

Definition tensorflow_version_tag : string := "1.10.1".

Definition ecr_repository : string :=
  account +:+ ".dkr.ecr." +:+ region +:+ ".amazonaws.com/test".

Definition image_name : string :=
  get_image_name ecr_repository tensorflow_version_tag.

(** *** Preparing the data *)

Definition upload_channel (channel_name : string) (x : ndarray) (y : list Z)
  : M string :=
  y <- lift (Keras.to_categorical y NUM_CLASSES);;
  file_path <- call tempfile_mkdtemp mkdtemp;;
  let file := os_path_join file_path "cifar-10-npz-compressed.npz" in
  call (savez_compressed file x y) (savez file x y);;;
  let key_prefix := "data/DEMO-keras-cifar10/" +:+ channel_name in
  call (upload_data file_path bucket key_prefix)
       (uploaded file_path bucket key_prefix).

Definition upload_training_data : M (gmap string string) :=
  data <- call cifar10_load_data load_data;;
  let '((x_train, y_train), (x_test, y_test)) := data in
  train_data_location <- upload_channel "train" x_train y_train;;
  test_data_location <- upload_channel "test" x_test y_test;;
  ret (dict [("train", train_data_location); ("test", test_data_location)]).

(** *** Testing the container locally *)

Definition hyperparameters : gmap string Py.value :=
  dict [("batch_size", Py.Int 32);
        ("data_augmentation", Py.Bool true);
        ("learning_rate", Py.Float (Float.of_decimal false 1 (-4)));
        ("width_shift_range", Py.Float (Float.of_decimal false 1 (-1)));
        ("height_shift_range", Py.Float (Float.of_decimal false 1 (-1)));
        ("epochs", Py.Int 1)].

Definition output_location : string :=
  "s3://" +:+ bucket +:+ "/" +:+ prefix +:+ "/output".

Definition local_run (channels : gmap string string) : M unit :=
  call (estimator_fit image_name role output_location 1 "local"
          hyperparameters channels)
       (fitted image_name hyperparameters channels).

(** *** The tuning job configuration *)

Definition tuning_job_name : M string :=
  now <- call time_gmtime (fun tr => inr (clock tr));;
  lift (tuning_job_name_at now).

(** The dict display of the cell, with the entries a caller varies (the
    searched ranges and the resource limits) as arguments. *)
Definition tuning_job_config_with
    (categorical : list CategoricalParameterRange.t)
    (continuous integer : list ParameterRange.t)
    (max_jobs max_parallel : Z) : TuningJobConfig.t :=
  {| TuningJobConfig.ParameterRanges :=
       {| ParameterRanges.CategoricalParameterRanges := categorical;
          ParameterRanges.ContinuousParameterRanges := continuous;
          ParameterRanges.IntegerParameterRanges := integer |};
     TuningJobConfig.ResourceLimits :=
       {| ResourceLimits.MaxNumberOfTrainingJobs := max_jobs;
          ResourceLimits.MaxParallelTrainingJobs := max_parallel |};
     TuningJobConfig.Strategy := "Bayesian";
     TuningJobConfig.HyperParameterTuningJobObjective :=
       {| Objective.MetricName := "loss";
          Objective.Type_ := "Minimize" |} |}.

(** The one entry of [ContinuousParameterRanges] in the notebook. *)
Definition learning_rate_range : ParameterRange.t :=
  {| ParameterRange.MaxValue := Py.Str "0.001";
     ParameterRange.MinValue := Py.Str "0.0001";
     ParameterRange.Name := "learning_rate" |}.

(** The cell as the notebook has it. *)
Definition tuning_job_config : TuningJobConfig.t :=
  tuning_job_config_with
    []
    [learning_rate_range]
    []
    9 9.

(** The same cell in the checkpoint copy of the notebook, which differs in
    the number of parallel training jobs. *)
Definition checkpoint_tuning_job_config : TuningJobConfig.t :=
  tuning_job_config_with
    []
    [learning_rate_range]
    []
    9 3.

(** *** The training job definition *)

Definition training_image : string := image_name.

(** [channels[key]] *)
Definition subscript (channels : gmap string string) (key : string)
  : exn + string :=
  match channels !! key with
  | Some v => inr v
  | None => inl (KeyError key)
  end.

Definition input_channel (name uri : string) : Channel.t :=
  {| Channel.ChannelName := name;
     Channel.DataSource :=
       {| DataSource.S3DataSource :=
            {| S3DataSource.S3DataType := "S3Prefix";
               S3DataSource.S3Uri := uri;
               S3DataSource.S3DataDistributionType := "FullyReplicated" |} |};
     Channel.CompressionType := "None";
     Channel.RecordWrapperType := "None" |}.

(** The dict display of the cell, with the static hyperparameters as an
    argument; [channels] is the global the data cell assigned. *)
Definition training_job_definition_with
    (static : gmap string Py.value) (channels : gmap string string)
  : exn + TrainingJobDefinition.t :=
  match subscript channels "train" with
  | inl e => inl e
  | inr train =>
      match subscript channels "test" with
      | inl e => inl e
      | inr test =>
          inr {| TrainingJobDefinition.AlgorithmSpecification :=
                   {| AlgorithmSpecification.MetricDefinitions :=
                        [ {| MetricDefinition.Name := "loss";
                             MetricDefinition.Regex := "loss: ([0-9\.]+)" |} ];
                      AlgorithmSpecification.TrainingImage := training_image;
                      AlgorithmSpecification.TrainingInputMode := "File" |};
                 TrainingJobDefinition.InputDataConfig :=
                   [ input_channel "train" train; input_channel "test" test ];
                 TrainingJobDefinition.OutputDataConfig :=
                   {| OutputDataConfig.S3OutputPath :=
                        "s3://" +:+ bucket +:+ "/" +:+ prefix +:+ "/output" |};
                 TrainingJobDefinition.ResourceConfig :=
                   {| ResourceConfig.InstanceCount := 1;
                      ResourceConfig.InstanceType := "ml.c5.xlarge";
                      ResourceConfig.VolumeSizeInGB := 100 |};
                 TrainingJobDefinition.RoleArn := role;
                 TrainingJobDefinition.StaticHyperParameters := static;
                 TrainingJobDefinition.StoppingCondition :=
                   {| StoppingCondition.MaxRuntimeInSeconds := 43200 |} |}
      end
  end.

Definition static_hyperparameters : gmap string Py.value :=
  dict [("batch_size", Py.Str "32");
        ("data_augmentation", Py.Str "True");
        ("height_shift_range", Py.Str "0.1");
        ("width_shift_range", Py.Str "0.1");
        ("epochs", Py.Str "1")].

(** The cell as the notebook has it. *)
Definition training_job_definition (channels : gmap string string)
  : exn + TrainingJobDefinition.t :=
  training_job_definition_with static_hyperparameters channels.

(** *** Creating the tuning job *)

(** The three tuning cells in order, for any searched ranges, resource
    limits and static hyperparameters: name the job, assemble the two
    documents, hand them to the service. *)
Definition launch_with
    (categorical : list CategoricalParameterRange.t)
    (continuous integer : list ParameterRange.t)
    (max_jobs max_parallel : Z)
    (static : gmap string Py.value)
    (channels : gmap string string) : M string :=
  name <- tuning_job_name;;
  let config :=
    tuning_job_config_with categorical continuous integer max_jobs max_parallel in
  definition <- lift (training_job_definition_with static channels);;
  call (create_hyper_parameter_tuning_job name config definition)
       (created name config definition).

(** The three tuning cells as the notebook has them. *)
Definition launch (channels : gmap string string) : M string :=
  name <- tuning_job_name;;
  definition <- lift (training_job_definition channels);;
  call (create_hyper_parameter_tuning_job name tuning_job_config definition)
       (created name tuning_job_config definition).

(** *** The cells in notebook order

    The registry push between the local run and the tuning cells is a
    sequence of shell commands that assigns no name; it is left out. *)
Definition notebook : M string :=
  build_image image_name tensorflow_version_tag;;;
  channels <- upload_training_data;;
  local_run channels;;;
  launch channels.

End Notebook.

(** ** Reading the documents *)

(** The location a training job definition gives for a channel: the
    [S3Uri] of the entry of [InputDataConfig] with that [ChannelName]. *)
Definition input_location (definition : TrainingJobDefinition.t)
    (channel_name : string) : option string :=
  match List.find (fun c => String.eqb (Channel.ChannelName c) channel_name)
          (TrainingJobDefinition.InputDataConfig definition) with
  | Some c => Some (S3DataSource.S3Uri (DataSource.S3DataSource (Channel.DataSource c)))
  | None => None
  end.

(** The names of the searched hyperparameters. *)
Definition search_names (ranges : ParameterRanges.t) : list string :=
  map CategoricalParameterRange.Name (ParameterRanges.CategoricalParameterRanges ranges)
  ++ map ParameterRange.Name (ParameterRanges.ContinuousParameterRanges ranges)
  ++ map ParameterRange.Name (ParameterRanges.IntegerParameterRanges ranges).

(** Decimal numerals such as ["0.0001"], read as [digits * 10^exp10]:
    digits with at most one decimal point. *)
Module Numeral.

Definition digit_value (c : ascii) : option Z :=
  let n := Z.of_N (N_of_ascii c) in
  if (48 <=? n) && (n <=? 57) then Some (n - 48) else None.

Fixpoint read (s : string) (digits : Z) (fraction : option Z) : option (Z * Z) :=
  match s with
  | EmptyString =>
      Some (digits, match fraction with Some n => - n | None => 0 end)
  | String c rest =>
      if Ascii.eqb c "." then
        match fraction with
        | None => read rest digits (Some 0)
        | Some _ => None
        end
      else
        match digit_value c with
        | Some d => read rest (10 * digits + d) (Z.succ <$> fraction)
        | None => None
        end
  end.

Definition of_string (s : string) : option (Z * Z) :=
  if String.eqb s "" || String.eqb s "." then None else read s 0 None.

(** [a.1 * 10^a.2 < b.1 * 10^b.2] *)
Definition ltb (a b : Z * Z) : bool :=
  let e := Z.min a.2 b.2 in
  a.1 * 10 ^ (a.2 - e) <? b.1 * 10 ^ (b.2 - e).

End Numeral.

(** The number a range bound stands for. *)
Definition bound_value (v : Py.value) : option (Z * Z) :=
  match v with
  | Py.Str s => Numeral.of_string s
  | Py.Int n => Some (n, 0)
  | _ => None
  end.

(** The bounds of a range are numbers with the minimum strictly below the
    maximum. *)
Definition range_ordered (r : ParameterRange.t) : bool :=
  match bound_value (ParameterRange.MinValue r),
        bound_value (ParameterRange.MaxValue r) with
  | Some lo, Some hi => Numeral.ltb lo hi
  | _, _ => false
  end.

(** The row of width [num_classes] that is 1 at the label's class and 0
    elsewhere. *)
Definition one_hot_row (num_classes label : Z) : list Z :=
  map (fun j => if j =? label `mod` num_classes then 1 else 0) (seqZ 0 num_classes).

(** ** A stand-in platform

    Answers in the shape of the notebook's recorded outputs, for running the
    cells on concrete inputs. *)

Module Demo.

(** Splitting at blanks, which is what [shlex.split] does to a command
    line without quotes, backslashes or other white space. *)
Fixpoint split_blank (s cur : string) : list string :=
  match s with
  | EmptyString => if String.eqb cur "" then [] else [cur]
  | String c rest =>
      if Ascii.eqb c " "
      then (if String.eqb cur "" then split_blank rest ""
            else cur :: split_blank rest "")
      else split_blank rest (cur +:+ String c "")
  end.

Definition platform (status : Z) : Platform :=
  {| bucket := "sagemaker-us-east-1-023375022819";
     role := "arn:aws:iam::023375022819:role/SageMakerRole";
     region := "us-east-1";
     account := "023375022819";
     shlex_split := fun s => inr (split_blank s "");
     exit_status := fun _ _ => inr status;
     load_data := fun _ => inr (([[59; 62; 63]], [6]), ([[158; 112; 49]], [3]));
     mkdtemp := fun tr => inr ("/tmp/tmp" +:+ pretty (length tr));
     savez := fun _ _ _ _ => inr tt;
     uploaded := fun _ b k _ => inr ("s3://" +:+ b +:+ "/" +:+ k);
     fitted := fun _ _ _ _ => inr tt;
     clock := fun _ => 1567017446;
     created := fun name _ _ _ =>
       inr ("arn:aws:sagemaker:us-east-1:023375022819:hyper-parameter-tuning-job/"
              +:+ name) |}.

Definition channels : gmap string string :=
  dict [("train", "s3://sagemaker-us-east-1-023375022819/data/DEMO-keras-cifar10/train");
        ("test", "s3://sagemaker-us-east-1-023375022819/data/DEMO-keras-cifar10/test")].

End Demo.

(** ** A stand-in platform whose test split has a label outside the classes *)

Module Faulty.

Definition platform : Platform :=
  {| bucket := bucket (Platform := Demo.platform 0);
     role := role (Platform := Demo.platform 0);
     region := region (Platform := Demo.platform 0);
     account := account (Platform := Demo.platform 0);
     shlex_split := shlex_split (Platform := Demo.platform 0);
     exit_status := exit_status (Platform := Demo.platform 0);
     load_data := fun _ => inr (([[59; 62; 63]], [6]), ([[158; 112; 49]], [12]));
     mkdtemp := mkdtemp (Platform := Demo.platform 0);
     savez := savez (Platform := Demo.platform 0);
     uploaded := uploaded (Platform := Demo.platform 0);
     fitted := fitted (Platform := Demo.platform 0);
     clock := clock (Platform := Demo.platform 0);
     created := created (Platform := Demo.platform 0) |}.

End Faulty.

(** ** Notions used in further statements *)

(** The event is a call to the tuning service. *)
Definition is_create (e : event) : bool :=
  match e with
  | create_hyper_parameter_tuning_job _ _ _ => true
  | _ => false
  end.

(** A letter, a digit or a hyphen. *)
Definition is_name_char (c : ascii) : bool :=
  let n := N_of_ascii c in
  ((48 <=? n) && (n <=? 57) || (65 <=? n) && (n <=? 90)
   || (97 <=? n) && (n <=? 122) || (n =? 45))%N.

(** The day of the month as [Time.civil_from_days] computes it from the
    day of the 400-year era. *)
Definition mday_of_doe (doe : Z) : Z :=
  let yoe := (doe - doe / 1460 + doe / 36524 - doe / 146096) / 365 in
  let doy := doe - (365 * yoe + yoe / 4 - yoe / 100) in
  let mp := (5 * doy + 2) / 153 in
  doy - (153 * mp + 2) / 5 + 1.

(** From one day to the next the day of the month grows by one or starts
    again at 1 after at least 28 days. *)
Definition next_mday_ok (a b : Z) : bool :=
  (b =? a + 1) || ((b =? 1) && (28 <=? a)).

(** [ok (f (i - 1)) (f i)] for the [n] arguments from [i] on, given
    [prev = f (i - 1)]. *)
Fixpoint chain (f : Z -> Z) (ok : Z -> Z -> bool) (prev i : Z) (n : nat) : bool :=
  match n with
  | O => true
  | S n' => let b := f i in ok prev b && chain f ok b (i + 1) n'
  end.

(** * Properties *)

(** ** The models on concrete inputs *)

Example float_tenth :
  Float.of_decimal false 1 (-1) = Float.Finite false 0x1999999999999a (-56).
Proof. reflexivity. Qed.

Example float_tenth_shortest : Float.shortest 0x1999999999999a (-56) = (1, -1).
Proof. vm_compute. reflexivity. Qed.

Example gmtime_of_the_recorded_run :
  Time.gmtime 1567017446 = Time.Make 2019 8 28 18 37 26.
Proof. reflexivity. Qed.

Example to_categorical_small :
  Keras.to_categorical [2; 0; -1] 3 = inr [[0; 0; 1]; [1; 0; 0]; [0; 0; 1]].
Proof. reflexivity. Qed.

Example to_categorical_out_of_range :
  Keras.to_categorical [2; 3] 3 = inl IndexError.
Proof. reflexivity. Qed.

Example demo_build :
  build_image (H := Demo.platform 0) "repo/test:tensorflow-1.10.1" "1.10.1" [] =
  (inr tt,
   [subprocess_call ["docker"; "build"; "-t"; "repo/test:tensorflow-1.10.1";
                     "--build-arg"; "VERSION=1.10.1"; "-f"; "Dockerfile"; "."]]).
Proof. reflexivity. Qed.

Example demo_upload :
  upload_training_data (H := Demo.platform 0) [] =
  (inr Demo.channels,
   [cifar10_load_data;
    tempfile_mkdtemp;
    savez_compressed "/tmp/tmp1/cifar-10-npz-compressed.npz" [[59; 62; 63]]
      [[0; 0; 0; 0; 0; 0; 1; 0; 0; 0]];
    upload_data "/tmp/tmp1" "sagemaker-us-east-1-023375022819"
      "data/DEMO-keras-cifar10/train";
    tempfile_mkdtemp;
    savez_compressed "/tmp/tmp4/cifar-10-npz-compressed.npz" [[158; 112; 49]]
      [[0; 0; 0; 1; 0; 0; 0; 0; 0; 0]];
    upload_data "/tmp/tmp4" "sagemaker-us-east-1-023375022819"
      "data/DEMO-keras-cifar10/test"]).
Proof. vm_compute. reflexivity. Qed.

Example str_of_local_values :
  map Py.str [Py.Int 32; Py.Bool true; Py.Float (Float.of_decimal false 1 (-1));
              Py.Float (Float.of_decimal false 1 (-4)); Py.Float (Float.of_decimal false 1 (-5))] =
  ["32"; "True"; "0.1"; "0.0001"; "1e-05"].
Proof. vm_compute. reflexivity. Qed.

Example demo_notebook :
  (notebook (H := Demo.platform 0) []).1 =
  inr "arn:aws:sagemaker:us-east-1:023375022819:hyper-parameter-tuning-job/BYO-keras-tuningjob-28-18-37-26".
Proof. vm_compute. reflexivity. Qed.

Example demo_notebook_build_fails :
  notebook (H := Demo.platform 1) [] =
  (inl (CalledProcessError 1
          ["docker"; "build"; "-t";
           "023375022819.dkr.ecr.us-east-1.amazonaws.com/test:tensorflow-1.10.1";
           "--build-arg"; "VERSION=1.10.1"; "-f"; "Dockerfile"; "."]),
   [subprocess_call
      ["docker"; "build"; "-t";
       "023375022819.dkr.ecr.us-east-1.amazonaws.com/test:tensorflow-1.10.1";
       "--build-arg"; "VERSION=1.10.1"; "-f"; "Dockerfile"; "."]]).
Proof. vm_compute. reflexivity. Qed.

(** The job name the notebook printed for its recorded run. *)
Example demo_job_name :
  tuning_job_name_at 1567017446 = inr "BYO-keras-tuningjob-28-18-37-26".
Proof. reflexivity. Qed.

(** ** Running the monad *)

Lemma bind_inr {A B} (m : M A) (k : A -> M B) tr a tr' :
  m tr = (inr a, tr') -> bind m k tr = k a tr'.
Proof. intros Hm. unfold bind. rewrite Hm. reflexivity. Qed.

(** ** Building the image *)

Lemma check_call_run `{Platform} argv tr status :
  exit_status argv tr = inr status ->
  check_call argv tr =
    (if status =? 0 then inr 0 else inl (CalledProcessError status argv),
     tr ++ [subprocess_call argv]).
Proof.
  intros Hs. unfold check_call. run. rewrite Hs.
  destruct (status =? 0); reflexivity.
Qed.

(** C8: for every image name and version, once the command line is split
    and the build process has run to an exit status, [build_image] raises
    [CalledProcessError] carrying that status when it is not zero and
    returns when it is zero; in both cases the build command was started
    exactly once. *)
Theorem build_image_exit_status `{Platform}
    (name version : string) (argv : list string) (status : Z) (tr : trace) :
  shlex_split (build_image_cmd name version) = inr argv ->
  exit_status argv tr = inr status ->
  (status <> 0 ->
   build_image name version tr =
     (inl (CalledProcessError status argv), tr ++ [subprocess_call argv])) /\
  (status = 0 ->
   build_image name version tr = (inr tt, tr ++ [subprocess_call argv])).
Proof.
  intros Hsplit Hstatus.
  assert (Hrun : build_image name version tr =
            (if status =? 0 then inr tt else inl (CalledProcessError status argv),
             tr ++ [subprocess_call argv])).
  { unfold build_image. cbv zeta.
    rewrite (bind_inr _ _ tr argv tr) by (unfold lift; now rewrite Hsplit).
    unfold bind at 1. rewrite (check_call_run _ _ _ Hstatus).
    destruct (status =? 0); reflexivity. }
  split; intros Hs; rewrite Hrun.
  - apply Z.eqb_neq in Hs. now rewrite Hs.
  - subst status. reflexivity.
Qed.

Lemma build_image_exit_status_witness :
  shlex_split (Platform := Demo.platform 2)
    (build_image_cmd "repo/test:tensorflow-1.10.1" "1.10.1") =
    inr ["docker"; "build"; "-t"; "repo/test:tensorflow-1.10.1";
         "--build-arg"; "VERSION=1.10.1"; "-f"; "Dockerfile"; "."] /\
  2 <> 0 /\
  build_image (H := Demo.platform 2) "repo/test:tensorflow-1.10.1" "1.10.1" [] =
    (inl (CalledProcessError 2
            ["docker"; "build"; "-t"; "repo/test:tensorflow-1.10.1";
             "--build-arg"; "VERSION=1.10.1"; "-f"; "Dockerfile"; "."]),
     [subprocess_call
        ["docker"; "build"; "-t"; "repo/test:tensorflow-1.10.1";
         "--build-arg"; "VERSION=1.10.1"; "-f"; "Dockerfile"; "."]]).
Proof.
  split; [reflexivity |]. split; [lia |].
  apply (build_image_exit_status (H := Demo.platform 2)
           "repo/test:tensorflow-1.10.1" "1.10.1" _ 2 []).
  - reflexivity.
  - reflexivity.
  - lia.
Defined.

(** ** The job name *)

Lemma civil_day_range days :
  1 <= (Time.civil_from_days days).2 <= 31.
Proof.
  unfold Time.civil_from_days. cbv zeta. cbn [snd].
  set (z := days + 719468).
  set (doe := z - z / 146097 * 146097).
  assert (Hdoe : 0 <= doe < 146097)
    by (subst doe; Z.to_euclidean_division_equations; lia).
  clearbody doe. clear z.
  set (yoe := (doe - doe / 1460 + doe / 36524 - doe / 146096) / 365).
  set (doy := doe - (365 * yoe + yoe / 4 - yoe / 100)).
  assert (Hdoy : 0 <= doy < 366)
    by (subst doy yoe; Z.to_euclidean_division_equations; lia).
  clearbody doy. clear yoe Hdoe doe.
  Z.to_euclidean_division_equations; lia.
Qed.

(** Every field that the format prints has at most two digits. *)
Lemma gmtime_range now :
  let t := Time.gmtime now in
  1 <= Time.tm_mday t <= 31 /\ 0 <= Time.tm_hour t < 24 /\
  0 <= Time.tm_min t < 60 /\ 0 <= Time.tm_sec t < 60.
Proof.
  unfold Time.gmtime.
  pose proof (civil_day_range (now / 86400)) as Hd.
  destruct (Time.civil_from_days (now / 86400)) as [[y m] d].
  cbn in Hd |- *.
  repeat split; try lia; Z.to_euclidean_division_equations; lia.
Qed.

Lemma digit_inj a b :
  0 <= a < 10 -> 0 <= b < 10 -> Time.digit a = Time.digit b -> a = b.
Proof.
  intros Ha Hb Heq. unfold Time.digit in Heq.
  apply (f_equal N_of_ascii) in Heq.
  rewrite !N_ascii_embedding in Heq by lia. lia.
Qed.

Lemma two_digits_small n :
  0 <= n < 100 ->
  Time.two_digits n =
    String (Time.digit (n / 10)) (String (Time.digit (n mod 10)) "").
Proof.
  intros Hn. unfold Time.two_digits.
  replace (0 <=? n) with true by (symmetry; apply Z.leb_le; lia).
  replace (n <? 100) with true by (symmetry; apply Z.ltb_lt; lia).
  reflexivity.
Qed.

Lemma append_empty_r (s : string) : s +:+ "" = s.
Proof. induction s as [|c s IH]; [reflexivity | exact (f_equal (String c) IH)]. Qed.

Lemma strftime_stamp t :
  Time.strftime "%d-%H-%M-%S" t =
    Some (Time.two_digits (Time.tm_mday t) +:+ "-" +:+
          Time.two_digits (Time.tm_hour t) +:+ "-" +:+
          Time.two_digits (Time.tm_min t) +:+ "-" +:+
          Time.two_digits (Time.tm_sec t)).
Proof. cbn -[Time.two_digits]. now rewrite append_empty_r. Qed.

Lemma two_digits_eq a b :
  0 <= a < 100 -> 0 <= b < 100 ->
  Time.digit (a / 10) = Time.digit (b / 10) ->
  Time.digit (a mod 10) = Time.digit (b mod 10) ->
  a = b.
Proof.
  intros Ha Hb Hq Hr.
  apply digit_inj in Hq; [| Z.to_euclidean_division_equations; lia ..].
  apply digit_inj in Hr; [| Z.to_euclidean_division_equations; lia ..].
  Z.to_euclidean_division_equations; lia.
Qed.

Lemma tuning_job_name_at_stamp now :
  tuning_job_name_at now =
    inr ("BYO-keras-tuningjob-" +:+
         (let t := Time.gmtime now in
          Time.two_digits (Time.tm_mday t) +:+ "-" +:+
          Time.two_digits (Time.tm_hour t) +:+ "-" +:+
          Time.two_digits (Time.tm_min t) +:+ "-" +:+
          Time.two_digits (Time.tm_sec t))).
Proof. unfold tuning_job_name_at. now rewrite strftime_stamp. Qed.

(** Equal names were made at the same day of month, hour, minute and
    second. *)
Lemma tuning_job_name_at_inj now1 now2 :
  tuning_job_name_at now1 = tuning_job_name_at now2 ->
  Time.day_and_time (Time.gmtime now1) = Time.day_and_time (Time.gmtime now2).
Proof.
  rewrite !tuning_job_name_at_stamp. cbv zeta.
  destruct (gmtime_range now1) as (Hd1 & Hh1 & Hm1 & Hs1).
  destruct (gmtime_range now2) as (Hd2 & Hh2 & Hm2 & Hs2).
  unfold Time.day_and_time.
  destruct (Time.gmtime now1) as [y1 mo1 d1 h1 mi1 s1].
  destruct (Time.gmtime now2) as [y2 mo2 d2 h2 mi2 s2].
  cbn [Time.tm_mday Time.tm_hour Time.tm_min Time.tm_sec] in *.
  rewrite !two_digits_small by lia.
  intros Heq. cbn in Heq.
  injection Heq as Hd_q Hd_r Hh_q Hh_r Hm_q Hm_r Hs_q Hs_r.
  rewrite (two_digits_eq d1 d2), (two_digits_eq h1 h2),
    (two_digits_eq mi1 mi2), (two_digits_eq s1 s2) by (assumption || lia).
  reflexivity.
Qed.

(** C9: the job name is the fixed prefix followed by the creation time
    printed as day of month, hour, minute and second.  Names made at
    creation times that differ in one of these four fields differ; the
    name does not mention the month or the year, so two different creation
    times can get the same name. *)
Theorem tuning_job_name_timestamp `{Platform} :
  (forall tr,
     tuning_job_name tr = (tuning_job_name_at (clock tr), tr ++ [time_gmtime])) /\
  (forall now, exists stamp,
     Time.strftime "%d-%H-%M-%S" (Time.gmtime now) = Some stamp /\
     tuning_job_name_at now = inr ("BYO-keras-tuningjob-" +:+ stamp)) /\
  (forall now1 now2,
     Time.day_and_time (Time.gmtime now1) <> Time.day_and_time (Time.gmtime now2) ->
     tuning_job_name_at now1 <> tuning_job_name_at now2) /\
  (1567017446 <> 1569695846 /\
   Time.gmtime 1567017446 = Time.Make 2019 8 28 18 37 26 /\
   Time.gmtime 1569695846 = Time.Make 2019 9 28 18 37 26 /\
   tuning_job_name_at 1567017446 = tuning_job_name_at 1569695846).
Proof.
  split; [| split; [| split]].
  - intros tr. reflexivity.
  - intros now. eexists. split; [apply strftime_stamp |].
    apply tuning_job_name_at_stamp.
  - intros now1 now2 Hne Heq. apply Hne. now apply tuning_job_name_at_inj.
  - split; [lia | repeat split].
Qed.

Lemma tuning_job_name_timestamp_witness :
  Time.day_and_time (Time.gmtime 1567017446) <>
    Time.day_and_time (Time.gmtime 1567017447) /\
  tuning_job_name_at 1567017446 <> tuning_job_name_at 1567017447.
Proof.
  assert (Hfields : Time.day_and_time (Time.gmtime 1567017446) <>
                    Time.day_and_time (Time.gmtime 1567017447))
    by (vm_compute; discriminate).
  split; [exact Hfields |].
  apply (tuning_job_name_timestamp (H := Demo.platform 0)). exact Hfields.
Defined.

(** ** Packaging the data *)

Lemma one_hot_inr k label row :
  Keras.one_hot k label = inr row -> label < k /\ row = one_hot_row k label.
Proof.
  unfold Keras.one_hot, one_hot_row.
  destruct (label <? - k) eqn:Hlo; [discriminate |].
  destruct (k <=? label) eqn:Hhi; [discriminate |].
  cbn. intros [= <-]. apply Z.ltb_ge in Hlo. apply Z.leb_gt in Hhi.
  split; [lia |]. f_equal.
  destruct (label <? 0) eqn:Hneg.
  - apply Z.ltb_lt in Hneg.
    replace (label `mod` k) with (label + k); [reflexivity |].
    apply Z.mod_unique with (q := -1); lia.
  - apply Z.ltb_ge in Hneg. now rewrite Z.mod_small by lia.
Qed.


Lemma one_hot_error k label e : Keras.one_hot k label = inl e -> e = IndexError.
Proof.
  unfold Keras.one_hot. destruct (_ || _); [now intros [= <-] | discriminate].
Qed.


Lemma rows_inr k y encoded :
  Keras.rows k y = inr encoded ->
  Forall2 (fun label row => label < k /\ row = one_hot_row k label) y encoded.
Proof.
  revert encoded. induction y as [|label y IH]; cbn; intros encoded.
  - intros [= <-]. constructor.
  - destruct (Keras.one_hot k label) as [e|row] eqn:Hrow; [discriminate |].
    destruct (Keras.rows k y) as [e|rs]; [discriminate |].
    intros [= <-]. constructor; [now apply one_hot_inr | now apply IH].
Qed.


(** [upload_channel] step by step: the outcome and the calls it adds to
    the trace. *)
Lemma upload_channel_run `{Platform} channel_name x y tr :
  upload_channel channel_name x y tr =
    match Keras.to_categorical y NUM_CLASSES with
    | inl e => (inl e, tr ++ [])
    | inr encoded =>
        match mkdtemp tr with
        | inl e => (inl e, tr ++ [tempfile_mkdtemp])
        | inr file_path =>
            let file := os_path_join file_path "cifar-10-npz-compressed.npz" in
            let key_prefix := "data/DEMO-keras-cifar10/" +:+ channel_name in
            match savez file x encoded (tr ++ [tempfile_mkdtemp]) with
            | inl e =>
                (inl e, tr ++ [tempfile_mkdtemp; savez_compressed file x encoded])
            | inr _ =>
                (uploaded file_path bucket key_prefix
                   (tr ++ [tempfile_mkdtemp; savez_compressed file x encoded]),
                 tr ++ [tempfile_mkdtemp; savez_compressed file x encoded;
                        upload_data file_path bucket key_prefix])
            end
        end
    end.
Proof.
  unfold upload_channel. run.
  destruct (Keras.to_categorical y NUM_CLASSES) as [e|encoded];
    [now rewrite app_nil_r |].
  destruct (mkdtemp tr) as [e|file_path]; [reflexivity |].
  cbv zeta. rewrite <- !app_assoc. cbn [app].
  destruct (savez _ x encoded _) as [e|[]]; reflexivity.
Qed.





(** C7: every upload that packaging a channel makes goes to the notebook's
    bucket under the key prefix [data/DEMO-keras-cifar10/<channel name>],
    whatever the data, the temporary directory and the calls made before;
    a packaging that succeeds made exactly that upload, last.  Training
    artifacts are directed to [s3://<bucket>/<prefix>/output] with the
    prefix [sagemaker/DEMO-hpo-keras-cifar10], in the local run and in every
    training job definition. *)
Theorem storage_paths `{Platform}
    (channel_name : string) (x : ndarray) (y : list Z) (tr : trace) :
  (forall r evs path bucket' key_prefix,
     upload_channel channel_name x y tr = (r, tr ++ evs) ->
     upload_data path bucket' key_prefix ∈ evs ->
     bucket' = bucket /\
     key_prefix = "data/DEMO-keras-cifar10/" +:+ channel_name) /\
  (forall location tr',
     upload_channel channel_name x y tr = (inr location, tr') ->
     exists path encoded,
       tr' = tr ++ [tempfile_mkdtemp;
                    savez_compressed
                      (os_path_join path "cifar-10-npz-compressed.npz") x encoded;
                    upload_data path bucket
                      ("data/DEMO-keras-cifar10/" +:+ channel_name)]) /\
  output_location =
    "s3://" +:+ bucket +:+ "/sagemaker/DEMO-hpo-keras-cifar10/output" /\
  (forall static channels definition,
     training_job_definition_with static channels = inr definition ->
     OutputDataConfig.S3OutputPath
       (TrainingJobDefinition.OutputDataConfig definition) =
     "s3://" +:+ bucket +:+ "/sagemaker/DEMO-hpo-keras-cifar10/output").
Proof.
  rewrite upload_channel_run. split; [| split; [| split]].
  - intros r evs path bucket' key_prefix Hrun Hin.
    destruct (Keras.to_categorical y NUM_CLASSES) as [e|encoded].
    { new_events Hrun evs. inversion Hin. }
    destruct (mkdtemp tr) as [e|file_path]; cbv zeta in Hrun;
      [| destruct (savez _ x encoded _) as [e|[]]];
      new_events Hrun evs;
      repeat (apply elem_of_cons in Hin as [Hin | Hin]);
      try discriminate Hin; now inversion Hin.
  - intros location tr' Hrun.
    destruct (Keras.to_categorical y NUM_CLASSES) as [e|encoded];
      [discriminate |].
    destruct (mkdtemp tr) as [e|file_path]; [discriminate |].
    cbv zeta in Hrun.
    destruct (savez _ x encoded _) as [e|[]]; [discriminate |].
    injection Hrun as _ <-. now exists file_path, encoded.
  - reflexivity.
  - intros static channels definition. unfold training_job_definition_with.
    destruct (subscript channels "train") as [e|train]; [discriminate |].
    destruct (subscript channels "test") as [e|test]; [discriminate |].
    now intros [= <-].
Qed.

Lemma storage_paths_witness :
  exists path encoded,
    [tempfile_mkdtemp;
     savez_compressed "/tmp/tmp0/cifar-10-npz-compressed.npz" [[59; 62; 63]]
       [[0; 0; 0; 0; 0; 0; 1; 0; 0; 0]];
     upload_data "/tmp/tmp0" "sagemaker-us-east-1-023375022819"
       "data/DEMO-keras-cifar10/train"] =
    [] ++ [tempfile_mkdtemp;
           savez_compressed
             (os_path_join path "cifar-10-npz-compressed.npz") [[59; 62; 63]] encoded;
           upload_data path (bucket (Platform := Demo.platform 0))
             ("data/DEMO-keras-cifar10/" +:+ "train")].
Proof.
  apply (storage_paths (H := Demo.platform 0) "train" [[59; 62; 63]] [6] [])
    with (location := "s3://sagemaker-us-east-1-023375022819/data/DEMO-keras-cifar10/train").
  vm_compute. reflexivity.
Defined.

(** ** From the packager to the input channels *)

Lemma training_job_definition_channels `{Platform} static channels train test :
  channels !! "train" = Some train ->
  channels !! "test" = Some test ->
  exists definition,
    training_job_definition_with static channels = inr definition /\
    TrainingJobDefinition.InputDataConfig definition =
      [input_channel "train" train; input_channel "test" test] /\
    TrainingJobDefinition.StaticHyperParameters definition = static.
Proof.
  intros Htrain Htest. unfold training_job_definition_with, subscript.
  rewrite Htrain, Htest. eexists. split; [reflexivity |]. now split.
Qed.

Lemma input_location_two definition train test channel_name :
  TrainingJobDefinition.InputDataConfig definition =
    [input_channel "train" train; input_channel "test" test] ->
  input_location definition channel_name =
    dict [("train", train); ("test", test)] !! channel_name.
Proof.
  intros Hcfg. unfold input_location, dict. rewrite Hcfg. cbn [foldl fst snd].
  cbn [List.find input_channel Channel.ChannelName].
  destruct (decide (channel_name = "test")) as [-> | Htest].
  { now rewrite lookup_insert_eq. }
  rewrite lookup_insert_ne by congruence.
  destruct (decide (channel_name = "train")) as [-> | Htrain].
  { now rewrite lookup_insert_eq. }
  rewrite lookup_insert_ne by congruence. rewrite lookup_empty.
  replace (String.eqb "train" channel_name) with false
    by (symmetry; apply String.eqb_neq; congruence).
  replace (String.eqb "test" channel_name) with false
    by (symmetry; apply String.eqb_neq; congruence).
  reflexivity.
Qed.

(** C5: when the data cell succeeds, its result maps exactly the two
    declared channel names to the locations that packaging each channel
    returned, and the training job definition assembled from that result
    has one input channel per declared name, in which the location is the
    one the packager returned for that name; for every name the definition
    gives the location the packager's result gives. *)
Theorem channel_locations_round_trip `{Platform}
    (tr tr' : trace) (channels : gmap string string) :
  upload_training_data tr = (inr channels, tr') ->
  exists x_train y_train x_test y_test tr1 train_location test_location definition,
    load_data tr = inr ((x_train, y_train), (x_test, y_test)) /\
    upload_channel "train" x_train y_train (tr ++ [cifar10_load_data]) =
      (inr train_location, tr1) /\
    upload_channel "test" x_test y_test tr1 = (inr test_location, tr') /\
    dom channels = {[ "train"; "test" ]} /\
    training_job_definition channels = inr definition /\
    map Channel.ChannelName (TrainingJobDefinition.InputDataConfig definition) =
      ["train"; "test"] /\
    input_location definition "train" = Some train_location /\
    input_location definition "test" = Some test_location /\
    (forall channel_name,
       input_location definition channel_name = channels !! channel_name).
Proof.
  unfold upload_training_data. run.
  destruct (load_data tr) as [e | [[x_train y_train] [x_test y_test]]];
    [discriminate |].
  destruct (upload_channel "train" _ _ _) as [[e|train_location] tr1] eqn:Htrain;
    [discriminate |].
  destruct (upload_channel "test" _ _ _) as [[e|test_location] tr2] eqn:Htest;
    [discriminate |].
  intros [= <- <-].
  destruct (training_job_definition_channels static_hyperparameters
              (dict [("train", train_location); ("test", test_location)])
              train_location test_location)
    as (definition & Hdef & Hcfg & _); [reflexivity .. |].
  exists x_train, y_train, x_test, y_test, tr1, train_location, test_location,
    definition.
  do 3 (split; [reflexivity || assumption |]).
  split; [| split; [assumption | repeat split]].
  - unfold dict. cbn [foldl fst snd]. rewrite !dom_insert_L. set_solver.
  - now rewrite Hcfg.
  - now rewrite (input_location_two _ _ _ _ Hcfg).
  - now rewrite (input_location_two _ _ _ _ Hcfg).
  - intros channel_name. apply (input_location_two _ _ _ _ Hcfg).
Qed.

Lemma channel_locations_round_trip_witness :
  exists x_train y_train x_test y_test tr1 train_location test_location definition,
    load_data (Platform := Demo.platform 0) [] =
      inr ((x_train, y_train), (x_test, y_test)) /\
    upload_channel (H := Demo.platform 0) "train" x_train y_train
      ([] ++ [cifar10_load_data]) = (inr train_location, tr1) /\
    upload_channel (H := Demo.platform 0) "test" x_test y_test tr1 =
      (inr test_location, (upload_training_data (H := Demo.platform 0) []).2) /\
    dom Demo.channels = {[ "train"; "test" ]} /\
    training_job_definition (H := Demo.platform 0) Demo.channels = inr definition /\
    map Channel.ChannelName (TrainingJobDefinition.InputDataConfig definition) =
      ["train"; "test"] /\
    input_location definition "train" = Some train_location /\
    input_location definition "test" = Some test_location /\
    (forall channel_name,
       input_location definition channel_name = Demo.channels !! channel_name).
Proof.
  apply (channel_locations_round_trip (H := Demo.platform 0) []).
  vm_compute. reflexivity.
Defined.

(** ** Assembling and submitting the two documents *)

Lemma tuning_job_name_run `{Platform} tr :
  exists name,
    tuning_job_name_at (clock tr) = inr name /\
    tuning_job_name tr = (inr name, tr ++ [time_gmtime]).
Proof.
  eexists. split; [apply tuning_job_name_at_stamp |].
  unfold tuning_job_name. run. now rewrite tuning_job_name_at_stamp.
Qed.

(** Whatever the searched ranges, the resource limits and the static
    hyperparameters are, the documents are assembled as given and handed to
    the service: the cells make no check of their own. *)
Lemma launch_with_run `{Platform}
    categorical continuous integer max_jobs max_parallel static channels tr
    train test :
  channels !! "train" = Some train ->
  channels !! "test" = Some test ->
  exists name definition,
    tuning_job_name_at (clock tr) = inr name /\
    training_job_definition_with static channels = inr definition /\
    TrainingJobDefinition.StaticHyperParameters definition = static /\
    launch_with categorical continuous integer max_jobs max_parallel static
      channels tr =
    let config :=
      tuning_job_config_with categorical continuous integer max_jobs max_parallel in
    (created name config definition (tr ++ [time_gmtime]),
     tr ++ [time_gmtime; create_hyper_parameter_tuning_job name config definition]).
Proof.
  intros Htrain Htest.
  destruct (tuning_job_name_run tr) as (name & Hname & Hrun).
  destruct (training_job_definition_channels static channels train test Htrain Htest)
    as (definition & Hdef & _ & Hstatic).
  exists name, definition. do 3 (split; [assumption |]).
  unfold launch_with. rewrite (bind_inr _ _ _ _ _ Hrun).
  cbv zeta. unfold bind, lift, call. rewrite Hdef.
  now rewrite <- app_assoc.
Qed.

Lemma launch_unfold `{Platform} channels :
  launch channels =
  launch_with
    []
    [learning_rate_range]
    []
    9 9 static_hyperparameters channels.
Proof. reflexivity. Qed.

(** C4: the tuning job configuration of the notebook (one continuous
    parameter [learning_rate] from 0.0001 to 0.001, 9 training jobs of which
    9 in parallel, strategy "Bayesian", objective minimizing "loss") has a
    parameter-range section with exactly one continuous entry, named
    [learning_rate], whose bounds read 0.0001 and 0.001, and with empty
    categorical and integer lists; this configuration is the payload the
    service is called with. *)
Theorem tuning_job_config_payload `{Platform} :
  TuningJobConfig.ParameterRanges tuning_job_config =
    {| ParameterRanges.CategoricalParameterRanges := [];
       ParameterRanges.ContinuousParameterRanges :=
         [ {| ParameterRange.MaxValue := Py.Str "0.001";
              ParameterRange.MinValue := Py.Str "0.0001";
              ParameterRange.Name := "learning_rate" |} ];
       ParameterRanges.IntegerParameterRanges := [] |} /\
  bound_value (Py.Str "0.0001") = Some (1, -4) /\
  bound_value (Py.Str "0.001") = Some (1, -3) /\
  TuningJobConfig.ResourceLimits tuning_job_config =
    {| ResourceLimits.MaxNumberOfTrainingJobs := 9;
       ResourceLimits.MaxParallelTrainingJobs := 9 |} /\
  TuningJobConfig.Strategy tuning_job_config = "Bayesian" /\
  TuningJobConfig.HyperParameterTuningJobObjective tuning_job_config =
    {| Objective.MetricName := "loss"; Objective.Type_ := "Minimize" |} /\
  (forall channels tr train test,
     channels !! "train" = Some train ->
     channels !! "test" = Some test ->
     exists name definition,
       launch channels tr =
         (created name tuning_job_config definition (tr ++ [time_gmtime]),
          tr ++ [time_gmtime;
                 create_hyper_parameter_tuning_job name tuning_job_config definition])).
Proof.
  do 6 (split; [reflexivity |]).
  intros channels tr train test Htrain Htest. rewrite launch_unfold.
  destruct (launch_with_run [] [learning_rate_range] [] 9 9
              static_hyperparameters channels tr train test Htrain Htest)
    as (name & definition & _ & _ & _ & Hrun).
  exists name, definition. exact Hrun.
Qed.

Lemma tuning_job_config_payload_witness :
  exists name definition,
    launch (H := Demo.platform 0) Demo.channels [] =
      (created (Platform := Demo.platform 0) name
         tuning_job_config definition ([] ++ [time_gmtime]),
       [] ++ [time_gmtime;
              create_hyper_parameter_tuning_job name
                tuning_job_config definition]).
Proof.
  apply (tuning_job_config_payload (H := Demo.platform 0)) with
    (train := "s3://sagemaker-us-east-1-023375022819/data/DEMO-keras-cifar10/train")
    (test := "s3://sagemaker-us-east-1-023375022819/data/DEMO-keras-cifar10/test");
    vm_compute; reflexivity.
Defined.

(** ** What the cells do not check *)

(** C1 as stated fails: a name that is both static and searched is
    assembled and submitted;
    here [learning_rate] is a static hyperparameter and the searched
    range, the cells raise nothing and the service is called with both
    documents. *)
Lemma name_collision_is_submitted :
  "learning_rate" ∈ dom (dict [("learning_rate", Py.Str "0.0005"); ("epochs", Py.Str "1")]) /\
  "learning_rate" ∈ search_names
     (TuningJobConfig.ParameterRanges
        (tuning_job_config_with [] [learning_rate_range] [] 9 9)) /\
  exists definition,
    training_job_definition_with (H := Demo.platform 0)
      (dict [("learning_rate", Py.Str "0.0005"); ("epochs", Py.Str "1")])
      Demo.channels = inr definition /\
    launch_with (H := Demo.platform 0) [] [learning_rate_range] [] 9 9
      (dict [("learning_rate", Py.Str "0.0005"); ("epochs", Py.Str "1")])
      Demo.channels [] =
    (inr "arn:aws:sagemaker:us-east-1:023375022819:hyper-parameter-tuning-job/BYO-keras-tuningjob-28-18-37-26",
     [time_gmtime;
      create_hyper_parameter_tuning_job "BYO-keras-tuningjob-28-18-37-26"
        (tuning_job_config_with [] [learning_rate_range] [] 9 9) definition]).
Proof.
  split; [| split].
  - apply elem_of_dom. exists (Py.Str "0.0005"). vm_compute. reflexivity.
  - cbn. set_solver.
  - eexists. split; vm_compute; reflexivity.
Qed.

(** C1 (amended): the cells do not compare the static names with the
    searched names.  For any static hyperparameters and any searched ranges,
    sharing names or not, the two documents are assembled as given and the
    service is called with them.  In the notebook's own documents no static
    name is a searched name. *)
Theorem static_and_searched_names `{Platform}
    (categorical : list CategoricalParameterRange.t)
    (continuous integer : list ParameterRange.t)
    (max_jobs max_parallel : Z) (static : gmap string Py.value)
    (channels : gmap string string) (tr : trace) (train test : string) :
  channels !! "train" = Some train ->
  channels !! "test" = Some test ->
  (exists name definition,
     let config :=
       tuning_job_config_with categorical continuous integer max_jobs max_parallel in
     TrainingJobDefinition.StaticHyperParameters definition = static /\
     search_names (TuningJobConfig.ParameterRanges config) =
       map CategoricalParameterRange.Name categorical
       ++ map ParameterRange.Name continuous ++ map ParameterRange.Name integer /\
     launch_with categorical continuous integer max_jobs max_parallel static
       channels tr =
     (created name config definition (tr ++ [time_gmtime]),
      tr ++ [time_gmtime; create_hyper_parameter_tuning_job name config definition])) /\
  (forall name,
     name ∈ dom static_hyperparameters ->
     name ∉ search_names (TuningJobConfig.ParameterRanges tuning_job_config)).
Proof.
  intros Htrain Htest. split.
  - destruct (launch_with_run categorical continuous integer max_jobs max_parallel
                static channels tr train test Htrain Htest)
      as (name & definition & _ & _ & Hstatic & Hrun).
    exists name, definition. cbv zeta. now repeat split.
  - intros name Hname Hsearched.
    cbn in Hsearched. apply list_elem_of_singleton in Hsearched as ->.
    apply elem_of_dom in Hname as [v Hv]. vm_compute in Hv. discriminate.
Qed.

Lemma static_and_searched_names_witness :
  Demo.channels !! "train" = Some "s3://sagemaker-us-east-1-023375022819/data/DEMO-keras-cifar10/train" /\
  Demo.channels !! "test" = Some "s3://sagemaker-us-east-1-023375022819/data/DEMO-keras-cifar10/test" /\
  exists name definition,
    TrainingJobDefinition.StaticHyperParameters definition =
      dict [("learning_rate", Py.Str "0.0005"); ("epochs", Py.Str "1")] /\
    (launch_with (H := Demo.platform 0) [] [learning_rate_range] [] 9 9
       (dict [("learning_rate", Py.Str "0.0005"); ("epochs", Py.Str "1")])
       Demo.channels []).2 =
    [time_gmtime;
     create_hyper_parameter_tuning_job name
       (tuning_job_config_with [] [learning_rate_range] [] 9 9) definition].
Proof.
  assert (Htrain : Demo.channels !! "train" = Some "s3://sagemaker-us-east-1-023375022819/data/DEMO-keras-cifar10/train")
    by (vm_compute; reflexivity).
  assert (Htest : Demo.channels !! "test" = Some "s3://sagemaker-us-east-1-023375022819/data/DEMO-keras-cifar10/test")
    by (vm_compute; reflexivity).
  split; [exact Htrain |]. split; [exact Htest |].
  destruct (static_and_searched_names (H := Demo.platform 0)
              [] [learning_rate_range] [] 9 9
              (dict [("learning_rate", Py.Str "0.0005"); ("epochs", Py.Str "1")])
              Demo.channels [] _ _ Htrain Htest)
    as [(name & definition & Hstatic & _ & Hrun) _].
  exists name, definition. split; [exact Hstatic |]. now rewrite Hrun.
Defined.

(** C2 as stated fails: more parallel than total training jobs are
    assembled and submitted; here 3 in total and 9 in parallel, the cells raise nothing and the
    service is called. *)
Lemma parallel_above_total_is_submitted :
  3 < 9 /\
  exists definition,
    launch_with (H := Demo.platform 0) [] [learning_rate_range] [] 3 9
      static_hyperparameters Demo.channels [] =
    (inr "arn:aws:sagemaker:us-east-1:023375022819:hyper-parameter-tuning-job/BYO-keras-tuningjob-28-18-37-26",
     [time_gmtime;
      create_hyper_parameter_tuning_job "BYO-keras-tuningjob-28-18-37-26"
        {| TuningJobConfig.ParameterRanges :=
             {| ParameterRanges.CategoricalParameterRanges := [];
                ParameterRanges.ContinuousParameterRanges := [learning_rate_range];
                ParameterRanges.IntegerParameterRanges := [] |};
           TuningJobConfig.ResourceLimits :=
             {| ResourceLimits.MaxNumberOfTrainingJobs := 3;
                ResourceLimits.MaxParallelTrainingJobs := 9 |};
           TuningJobConfig.Strategy := "Bayesian";
           TuningJobConfig.HyperParameterTuningJobObjective :=
             {| Objective.MetricName := "loss"; Objective.Type_ := "Minimize" |} |}
        definition]).
Proof. split; [lia |]. eexists. vm_compute. reflexivity. Qed.

(** C2 (amended): the cells do not compare the two resource limits.  For
    any pair of limits the configuration is assembled with exactly that
    pair and the service is called with it.  The notebook's own
    configuration, and the one of its checkpoint copy, have no more
    parallel than total training jobs. *)
Theorem resource_limits_unchecked `{Platform}
    (categorical : list CategoricalParameterRange.t)
    (continuous integer : list ParameterRange.t)
    (max_jobs max_parallel : Z) (static : gmap string Py.value)
    (channels : gmap string string) (tr : trace) (train test : string) :
  channels !! "train" = Some train ->
  channels !! "test" = Some test ->
  (exists name definition,
     let config :=
       tuning_job_config_with categorical continuous integer max_jobs max_parallel in
     TuningJobConfig.ResourceLimits config =
       {| ResourceLimits.MaxNumberOfTrainingJobs := max_jobs;
          ResourceLimits.MaxParallelTrainingJobs := max_parallel |} /\
     launch_with categorical continuous integer max_jobs max_parallel static
       channels tr =
     (created name config definition (tr ++ [time_gmtime]),
      tr ++ [time_gmtime; create_hyper_parameter_tuning_job name config definition])) /\
  ResourceLimits.MaxParallelTrainingJobs (TuningJobConfig.ResourceLimits tuning_job_config)
    <= ResourceLimits.MaxNumberOfTrainingJobs (TuningJobConfig.ResourceLimits tuning_job_config) /\
  ResourceLimits.MaxParallelTrainingJobs
    (TuningJobConfig.ResourceLimits checkpoint_tuning_job_config)
    <= ResourceLimits.MaxNumberOfTrainingJobs
         (TuningJobConfig.ResourceLimits checkpoint_tuning_job_config).
Proof.
  intros Htrain Htest. split; [| split; cbn; lia].
  destruct (launch_with_run categorical continuous integer max_jobs max_parallel
              static channels tr train test Htrain Htest)
    as (name & definition & _ & _ & _ & Hrun).
  exists name, definition. cbv zeta. now split.
Qed.

Lemma resource_limits_unchecked_witness :
  Demo.channels !! "train" = Some "s3://sagemaker-us-east-1-023375022819/data/DEMO-keras-cifar10/train" /\
  Demo.channels !! "test" = Some "s3://sagemaker-us-east-1-023375022819/data/DEMO-keras-cifar10/test" /\
  exists name definition,
    (launch_with (H := Demo.platform 0) [] [learning_rate_range] [] 3 9
       static_hyperparameters Demo.channels []).2 =
    [time_gmtime;
     create_hyper_parameter_tuning_job name
       (tuning_job_config_with [] [learning_rate_range] [] 3 9) definition].
Proof.
  assert (Htrain : Demo.channels !! "train" = Some "s3://sagemaker-us-east-1-023375022819/data/DEMO-keras-cifar10/train")
    by (vm_compute; reflexivity).
  assert (Htest : Demo.channels !! "test" = Some "s3://sagemaker-us-east-1-023375022819/data/DEMO-keras-cifar10/test")
    by (vm_compute; reflexivity).
  split; [exact Htrain |]. split; [exact Htest |].
  destruct (resource_limits_unchecked (H := Demo.platform 0)
              [] [learning_rate_range] [] 3 9 static_hyperparameters
              Demo.channels [] _ _ Htrain Htest)
    as [(name & definition & _ & Hrun) _].
  exists name, definition. now rewrite Hrun.
Defined.

(** C3 as stated fails: a range whose minimum is above its maximum is
    assembled and submitted; here [learning_rate] from 0.001 down to 0.0001, the cells raise nothing
    and the service is called. *)
Lemma unordered_range_is_submitted :
  range_ordered
    {| ParameterRange.MaxValue := Py.Str "0.0001";
       ParameterRange.MinValue := Py.Str "0.001";
       ParameterRange.Name := "learning_rate" |} = false /\
  exists definition,
    launch_with (H := Demo.platform 0) []
      [ {| ParameterRange.MaxValue := Py.Str "0.0001";
           ParameterRange.MinValue := Py.Str "0.001";
           ParameterRange.Name := "learning_rate" |} ] [] 9 9
      static_hyperparameters Demo.channels [] =
    (inr "arn:aws:sagemaker:us-east-1:023375022819:hyper-parameter-tuning-job/BYO-keras-tuningjob-28-18-37-26",
     [time_gmtime;
      create_hyper_parameter_tuning_job "BYO-keras-tuningjob-28-18-37-26"
        (tuning_job_config_with []
           [ {| ParameterRange.MaxValue := Py.Str "0.0001";
                ParameterRange.MinValue := Py.Str "0.001";
                ParameterRange.Name := "learning_rate" |} ] [] 9 9)
        definition]).
Proof. split; [reflexivity |]. eexists. vm_compute. reflexivity. Qed.

(** C3 (amended): the cells do not compare the bounds of a range.  For any
    continuous and integer ranges the configuration is assembled with
    exactly those ranges and the service is called with it.  The notebook's
    own configuration has one continuous range, whose minimum 0.0001 is
    strictly below its maximum 0.001, and no integer range. *)
Theorem range_bounds_unchecked `{Platform}
    (categorical : list CategoricalParameterRange.t)
    (continuous integer : list ParameterRange.t)
    (max_jobs max_parallel : Z) (static : gmap string Py.value)
    (channels : gmap string string) (tr : trace) (train test : string) :
  channels !! "train" = Some train ->
  channels !! "test" = Some test ->
  (exists name definition,
     let config :=
       tuning_job_config_with categorical continuous integer max_jobs max_parallel in
     ParameterRanges.ContinuousParameterRanges
       (TuningJobConfig.ParameterRanges config) = continuous /\
     ParameterRanges.IntegerParameterRanges
       (TuningJobConfig.ParameterRanges config) = integer /\
     launch_with categorical continuous integer max_jobs max_parallel static
       channels tr =
     (created name config definition (tr ++ [time_gmtime]),
      tr ++ [time_gmtime; create_hyper_parameter_tuning_job name config definition])) /\
  Forall (fun r => range_ordered r = true)
    (ParameterRanges.ContinuousParameterRanges
       (TuningJobConfig.ParameterRanges tuning_job_config)) /\
  ParameterRanges.IntegerParameterRanges
    (TuningJobConfig.ParameterRanges tuning_job_config) = [].
Proof.
  intros Htrain Htest. split; [| split; [| reflexivity]].
  - destruct (launch_with_run categorical continuous integer max_jobs max_parallel
                static channels tr train test Htrain Htest)
      as (name & definition & _ & _ & _ & Hrun).
    exists name, definition. cbv zeta. now repeat split.
  - cbn. repeat constructor.
Qed.

Lemma range_bounds_unchecked_witness :
  Demo.channels !! "train" = Some "s3://sagemaker-us-east-1-023375022819/data/DEMO-keras-cifar10/train" /\
  Demo.channels !! "test" = Some "s3://sagemaker-us-east-1-023375022819/data/DEMO-keras-cifar10/test" /\
  exists name definition,
    (launch_with (H := Demo.platform 0) []
       [ {| ParameterRange.MaxValue := Py.Str "0.0001";
            ParameterRange.MinValue := Py.Str "0.001";
            ParameterRange.Name := "learning_rate" |} ] [] 9 9
       static_hyperparameters Demo.channels []).2 =
    [time_gmtime;
     create_hyper_parameter_tuning_job name
       (tuning_job_config_with []
          [ {| ParameterRange.MaxValue := Py.Str "0.0001";
               ParameterRange.MinValue := Py.Str "0.001";
               ParameterRange.Name := "learning_rate" |} ] [] 9 9)
       definition].
Proof.
  assert (Htrain : Demo.channels !! "train" = Some "s3://sagemaker-us-east-1-023375022819/data/DEMO-keras-cifar10/train")
    by (vm_compute; reflexivity).
  assert (Htest : Demo.channels !! "test" = Some "s3://sagemaker-us-east-1-023375022819/data/DEMO-keras-cifar10/test")
    by (vm_compute; reflexivity).
  split; [exact Htrain |]. split; [exact Htest |].
  destruct (range_bounds_unchecked (H := Demo.platform 0) []
              [ {| ParameterRange.MaxValue := Py.Str "0.0001";
                   ParameterRange.MinValue := Py.Str "0.001";
                   ParameterRange.Name := "learning_rate" |} ] [] 9 9
              static_hyperparameters Demo.channels [] _ _ Htrain Htest)
    as [(name & definition & _ & _ & Hrun) _].
  exists name, definition. now rewrite Hrun.
Defined.

(** ** Hyperparameter values: typed locally, strings when submitted *)

Lemma static_hyperparameters_rendered :
  static_hyperparameters =
    (fun v => Py.Str (Py.str v)) <$> delete "learning_rate" hyperparameters.
Proof. vm_compute. reflexivity. Qed.

(** C10: in the documents submitted to the tuning service every
    hyperparameter value is a string: each static hyperparameter of every
    training job definition the notebook assembles, and both bounds of each
    continuous range.  The local run is given typed values instead (the
    integer 32, the boolean True, the floats 0.0001 and 0.1, the integer 1),
    none of them a string.  The static hyperparameters are exactly the
    [str()] renderings of the local values under the same names, which are
    all local names but the searched [learning_rate]; the lower bound of
    its range is the rendering of the local learning rate. *)
Theorem hyperparameter_values_are_strings `{Platform} :
  (forall channels definition,
     training_job_definition channels = inr definition ->
     TrainingJobDefinition.StaticHyperParameters definition = static_hyperparameters /\
     map_Forall (fun _ v => Py.is_str v = true)
       (TrainingJobDefinition.StaticHyperParameters definition)) /\
  Forall (fun r => Py.is_str (ParameterRange.MinValue r) = true /\
                   Py.is_str (ParameterRange.MaxValue r) = true)
    (ParameterRanges.ContinuousParameterRanges
       (TuningJobConfig.ParameterRanges tuning_job_config)) /\
  (forall channels tr,
     local_run channels tr =
       (fitted image_name hyperparameters channels tr,
        tr ++ [estimator_fit image_name role output_location 1 "local"
                 hyperparameters channels])) /\
  hyperparameters =
    dict [("batch_size", Py.Int 32);
          ("data_augmentation", Py.Bool true);
          ("learning_rate", Py.Float (Float.Finite false 7378697629483821 (-66)));
          ("width_shift_range", Py.Float (Float.Finite false 7205759403792794 (-56)));
          ("height_shift_range", Py.Float (Float.Finite false 7205759403792794 (-56)));
          ("epochs", Py.Int 1)] /\
  map_Forall (fun _ v => Py.is_str v = false) hyperparameters /\
  static_hyperparameters =
    (fun v => Py.Str (Py.str v)) <$> delete "learning_rate" hyperparameters /\
  (Py.Str ∘ Py.str) <$> hyperparameters !! "learning_rate" =
    Some (ParameterRange.MinValue learning_rate_range).
Proof.
  split; [| split; [| split; [| split; [| split; [| split]]]]].
  - intros channels definition. unfold training_job_definition.
    unfold training_job_definition_with.
    destruct (subscript channels "train") as [e|train]; [discriminate |].
    destruct (subscript channels "test") as [e|test]; [discriminate |].
    intros [= <-]. cbn [TrainingJobDefinition.StaticHyperParameters].
    split; [reflexivity |].
    rewrite static_hyperparameters_rendered.
    apply map_Forall_fmap. now intros k v _.
  - cbn. now repeat constructor.
  - reflexivity.
  - vm_compute. reflexivity.
  - unfold hyperparameters, dict. cbn [foldl fst snd].
    repeat (apply map_Forall_insert_2; [reflexivity |]).
    apply map_Forall_empty.
  - apply static_hyperparameters_rendered.
  - vm_compute. reflexivity.
Qed.

Lemma hyperparameter_values_are_strings_witness :
  exists definition,
    training_job_definition (H := Demo.platform 0) Demo.channels = inr definition /\
    map_Forall (fun _ v => Py.is_str v = true)
      (TrainingJobDefinition.StaticHyperParameters definition).
Proof.
  eexists. split; [vm_compute; reflexivity |].
  apply (proj1 (hyperparameter_values_are_strings (H := Demo.platform 0))
           Demo.channels).
  vm_compute. reflexivity.
Defined.

(** * Further properties of the cells *)

(** ** Building the image: every outcome *)

Lemma build_image_run `{Platform} name version tr :
  build_image name version tr =
    match shlex_split (build_image_cmd name version) with
    | inl e => (inl e, tr)
    | inr argv =>
        (match exit_status argv tr with
         | inl e => inl e
         | inr status =>
             if status =? 0 then inr tt
             else inl (CalledProcessError status argv)
         end,
         tr ++ [subprocess_call argv])
    end.
Proof.
  unfold build_image, check_call. run.
  destruct (shlex_split _) as [e|argv]; [reflexivity |].
  destruct (exit_status argv tr) as [e|status]; [reflexivity |].
  destruct (status =? 0); reflexivity.
Qed.

Lemma app_eq_self {A} (l evs : list A) : l ++ evs = l -> evs = [].
Proof.
  intros Heq. rewrite <- (app_nil_r l) in Heq at 2.
  now apply app_inv_head in Heq.
Qed.

(** X1: [build_image] succeeds exactly when the command line splits and
    the one process started for it exits with status zero.  When splitting
    raises, the exception is passed on and no process is started; when the
    process cannot be started, that exception is passed on after the one
    attempt. *)
Theorem build_image_outcome `{Platform} (name version : string) (tr : trace) :
  (forall tr',
     build_image name version tr = (inr tt, tr') <->
     exists argv,
       shlex_split (build_image_cmd name version) = inr argv /\
       exit_status argv tr = inr 0 /\
       tr' = tr ++ [subprocess_call argv]) /\
  (forall e,
     shlex_split (build_image_cmd name version) = inl e ->
     build_image name version tr = (inl e, tr)) /\
  (forall argv e,
     shlex_split (build_image_cmd name version) = inr argv ->
     exit_status argv tr = inl e ->
     build_image name version tr = (inl e, tr ++ [subprocess_call argv])).
Proof.
  rewrite build_image_run. split; [| split].
  - intros tr'. split.
    + destruct (shlex_split _) as [e|argv] eqn:Hsplit; [discriminate |].
      destruct (exit_status argv tr) as [e|status] eqn:Hexit; [discriminate |].
      destruct (status =? 0) eqn:Hstatus; [| discriminate].
      apply Z.eqb_eq in Hstatus as ->.
      intros [= <-]. now exists argv.
    + intros (argv & -> & -> & ->). reflexivity.
  - now intros e ->.
  - now intros argv e -> ->.
Qed.

Lemma build_image_outcome_witness :
  shlex_split (Platform := Demo.platform 0)
    (build_image_cmd "repo/test:tensorflow-1.10.1" "1.10.1") =
    inr ["docker"; "build"; "-t"; "repo/test:tensorflow-1.10.1";
         "--build-arg"; "VERSION=1.10.1"; "-f"; "Dockerfile"; "."] /\
  build_image (H := Demo.platform 0) "repo/test:tensorflow-1.10.1" "1.10.1" [] =
    (inr tt,
     [] ++ [subprocess_call
              ["docker"; "build"; "-t"; "repo/test:tensorflow-1.10.1";
               "--build-arg"; "VERSION=1.10.1"; "-f"; "Dockerfile"; "."]]).
Proof.
  split; [reflexivity |].
  apply (build_image_outcome (H := Demo.platform 0)
           "repo/test:tensorflow-1.10.1" "1.10.1" []).
  eexists. split; [reflexivity |]. split; reflexivity.
Defined.

(** ** Packaging: which labels are accepted, and what the archive holds *)

Lemma one_hot_out_of_range k label :
  label < - k \/ k <= label -> Keras.one_hot k label = inl IndexError.
Proof.
  intros Hout. unfold Keras.one_hot.
  destruct (label <? - k) eqn:Hlo; [reflexivity |].
  apply Z.ltb_ge in Hlo.
  replace (k <=? label) with true by (symmetry; apply Z.leb_le; lia).
  reflexivity.
Qed.

Lemma one_hot_inl k label e :
  Keras.one_hot k label = inl e -> label < - k \/ k <= label.
Proof.
  unfold Keras.one_hot.
  destruct (label <? - k) eqn:Hlo; [apply Z.ltb_lt in Hlo; lia |].
  destruct (k <=? label) eqn:Hhi; [apply Z.leb_le in Hhi; lia |].
  discriminate.
Qed.

Lemma rows_out_of_range k y :
  Exists (fun label => label < - k \/ k <= label) y ->
  Keras.rows k y = inl IndexError.
Proof.
  induction 1 as [label y Hout | label y _ IH]; cbn.
  - rewrite one_hot_out_of_range by exact Hout. reflexivity.
  - destruct (Keras.one_hot k label) as [e|row] eqn:Hrow.
    + now apply one_hot_error in Hrow as ->.
    + now rewrite IH.
Qed.

Lemma rows_inl k y e :
  Keras.rows k y = inl e ->
  Exists (fun label => label < - k \/ k <= label) y.
Proof.
  induction y as [|label y IH]; cbn; [discriminate |].
  destruct (Keras.one_hot k label) as [e'|row] eqn:Hrow.
  - intros _. apply Exists_cons_hd. now apply one_hot_inl in Hrow.
  - destruct (Keras.rows k y) as [e'|rs]; [| discriminate].
    intros Heq. apply Exists_cons_tl, IH, Heq.
Qed.

Lemma to_categorical_rows y :
  Keras.to_categorical y NUM_CLASSES = Keras.rows NUM_CLASSES y.
Proof. reflexivity. Qed.

(** X2: packaging accepts exactly the label arrays whose labels all lie
    in [-NUM_CLASSES, NUM_CLASSES).  It fails without having made any call
    exactly when some label is outside, and the failure is then an
    [IndexError]; otherwise the labels are encoded and the temporary
    directory is requested.  In particular negative labels down to
    [-NUM_CLASSES] are not rejected. *)
Theorem upload_channel_label_range `{Platform}
    (channel_name : string) (x : ndarray) (y : list Z) (tr : trace) :
  ((exists e, upload_channel channel_name x y tr = (inl e, tr)) <->
   Exists (fun label => label < - NUM_CLASSES \/ NUM_CLASSES <= label) y) /\
  (Exists (fun label => label < - NUM_CLASSES \/ NUM_CLASSES <= label) y ->
   upload_channel channel_name x y tr = (inl IndexError, tr)) /\
  (Forall (fun label => - NUM_CLASSES <= label < NUM_CLASSES) y ->
   exists encoded r evs,
     Keras.to_categorical y NUM_CLASSES = inr encoded /\
     upload_channel channel_name x y tr = (r, tr ++ tempfile_mkdtemp :: evs)).
Proof.
  rewrite upload_channel_run, to_categorical_rows.
  assert (Hfail : Exists (fun label => label < - NUM_CLASSES \/ NUM_CLASSES <= label) y ->
                  Keras.rows NUM_CLASSES y = inl IndexError)
    by apply rows_out_of_range.
  split; [| split].
  - split.
    + intros [e Hrun].
      destruct (Keras.rows NUM_CLASSES y) as [e'|encoded] eqn:Hrows.
      { eapply rows_inl, Hrows. }
      exfalso.
      destruct (mkdtemp tr) as [e'|file_path]; cbv zeta in Hrun;
        [| destruct (savez _ x encoded _) as [e'|[]]];
        injection Hrun as _ Htr; apply app_eq_self in Htr; discriminate.
    + intros Hout. exists IndexError. now rewrite Hfail, app_nil_r.
  - intros Hout. now rewrite Hfail, app_nil_r.
  - intros Hin.
    destruct (Keras.rows NUM_CLASSES y) as [e|encoded] eqn:Hrows.
    { apply rows_inl in Hrows. exfalso.
      apply Exists_exists in Hrows as (label & Hlabel & Hout).
      rewrite Forall_forall in Hin. specialize (Hin label Hlabel). lia. }
    exists encoded.
    destruct (mkdtemp tr) as [e|file_path]; cbv zeta;
      [| destruct (savez _ x encoded _) as [e|[]]];
      eexists _, _; (split; [reflexivity |]); reflexivity.
Qed.

Lemma upload_channel_label_range_witness :
  Forall (fun label => - NUM_CLASSES <= label < NUM_CLASSES) [-1; 9; -10] /\
  exists encoded r evs,
    Keras.to_categorical [-1; 9; -10] NUM_CLASSES = inr encoded /\
    upload_channel (H := Demo.platform 0) "train" [[1]; [2]; [3]] [-1; 9; -10] [] =
      (r, [] ++ tempfile_mkdtemp :: evs).
Proof.
  assert (Hin : Forall (fun label => - NUM_CLASSES <= label < NUM_CLASSES) [-1; 9; -10])
    by (unfold NUM_CLASSES; repeat constructor; lia).
  split; [exact Hin |].
  now apply (upload_channel_label_range (H := Demo.platform 0) "train"
               [[1]; [2]; [3]] [-1; 9; -10] []).
Defined.

(** What an archive written by [upload_channel] holds. *)
Lemma upload_channel_saved `{Platform} channel_name x y tr r evs file x' y' :
  upload_channel channel_name x y tr = (r, tr ++ evs) ->
  savez_compressed file x' y' ∈ evs ->
  x' = x /\ Keras.rows NUM_CLASSES y = inr y'.
Proof.
  rewrite upload_channel_run, to_categorical_rows. intros Hrun Hin.
  destruct (Keras.rows NUM_CLASSES y) as [e|encoded].
  { new_events Hrun evs. inversion Hin. }
  destruct (mkdtemp tr) as [e|file_path]; cbv zeta in Hrun;
    [| destruct (savez _ x encoded _) as [e|[]]];
    new_events Hrun evs;
    repeat (apply elem_of_cons in Hin as [Hin | Hin]);
    try discriminate Hin; try (now inversion Hin);
    now injection Hin as -> -> ->.
Qed.

Lemma indicator_sum (i : Z) (n : nat) (m : Z) :
  foldr Z.add 0 (map (fun j => if j =? i then 1 else 0) (seqZ m (Z.of_nat n))) =
  if (m <=? i) && (i <? m + Z.of_nat n) then 1 else 0.
Proof.
  revert m. induction n as [|n IH]; intros m.
  - rewrite seqZ_nil by lia. cbn [map foldr].
    destruct (Z.leb_spec m i), (Z.ltb_spec i (m + Z.of_nat 0)); cbn [andb]; lia.
  - rewrite seqZ_cons by lia. cbn [map foldr].
    replace (Z.pred (Z.of_nat (S n))) with (Z.of_nat n) by lia.
    rewrite IH.
    destruct (Z.eqb_spec m i), (Z.leb_spec (Z.succ m) i), (Z.leb_spec m i),
      (Z.ltb_spec i (Z.succ m + Z.of_nat n)), (Z.ltb_spec i (m + Z.of_nat (S n)));
      cbn [andb]; lia.
Qed.

Lemma one_hot_row_valid k label :
  0 < k ->
  Forall (fun v => v = 0 \/ v = 1) (one_hot_row k label) /\
  foldr Z.add 0 (one_hot_row k label) = 1 /\
  one_hot_row k label !! Z.to_nat (label `mod` k) = Some 1.
Proof.
  intros Hk. pose proof (Z.mod_pos_bound label k Hk) as Hmod.
  unfold one_hot_row. split; [| split].
  - apply Forall_forall. intros v Hv.
    apply list_elem_of_fmap in Hv as (j & -> & _).
    destruct (j =? label `mod` k); auto.
  - replace (seqZ 0 k) with (seqZ 0 (Z.of_nat (Z.to_nat k)))
      by (now rewrite Z2Nat.id by lia).
    rewrite indicator_sum, Z2Nat.id by lia.
    replace (0 <=? label `mod` k) with true by (symmetry; apply Z.leb_le; lia).
    replace (label `mod` k <? 0 + k) with true by (symmetry; apply Z.ltb_lt; lia).
    reflexivity.
  - rewrite list_lookup_fmap, lookup_seqZ_lt by lia. cbn.
    rewrite Z2Nat.id by lia. now rewrite Z.eqb_refl.
Qed.

(** X3: every row of every archive that packaging writes is a one-hot
    vector: its entries are 0 or 1, they sum to 1, and the 1 stands at the
    index of the label's class ([label mod NUM_CLASSES]). *)
Theorem archive_rows_one_hot `{Platform}
    (channel_name : string) (x : ndarray) (y : list Z) (tr : trace)
    (r : exn + string) (evs : trace) (file : string) (x' y' : ndarray) :
  upload_channel channel_name x y tr = (r, tr ++ evs) ->
  savez_compressed file x' y' ∈ evs ->
  Forall2 (fun label row =>
             Forall (fun v => v = 0 \/ v = 1) row /\
             foldr Z.add 0 row = 1 /\
             row !! Z.to_nat (label `mod` NUM_CLASSES) = Some 1) y y'.
Proof.
  intros Hrun Hin.
  destruct (upload_channel_saved _ _ _ _ _ _ _ _ _ Hrun Hin) as [_ Hrows].
  apply rows_inr in Hrows.
  eapply Forall2_impl; [exact Hrows |].
  intros label row [_ ->]. now apply one_hot_row_valid.
Qed.

Lemma archive_rows_one_hot_witness :
  savez_compressed "/tmp/tmp0/cifar-10-npz-compressed.npz" [[59; 62; 63]]
    [[0; 0; 0; 0; 0; 0; 1; 0; 0; 0]] ∈
    [tempfile_mkdtemp;
     savez_compressed "/tmp/tmp0/cifar-10-npz-compressed.npz" [[59; 62; 63]]
       [[0; 0; 0; 0; 0; 0; 1; 0; 0; 0]];
     upload_data "/tmp/tmp0" "sagemaker-us-east-1-023375022819"
       "data/DEMO-keras-cifar10/train"] /\
  Forall2 (fun label row =>
             Forall (fun v => v = 0 \/ v = 1) row /\
             foldr Z.add 0 row = 1 /\
             row !! Z.to_nat (label `mod` NUM_CLASSES) = Some 1)
    [6] [[0; 0; 0; 0; 0; 0; 1; 0; 0; 0]].
Proof.
  assert (Hin : savez_compressed "/tmp/tmp0/cifar-10-npz-compressed.npz" [[59; 62; 63]]
                  [[0; 0; 0; 0; 0; 0; 1; 0; 0; 0]] ∈
                [tempfile_mkdtemp;
                 savez_compressed "/tmp/tmp0/cifar-10-npz-compressed.npz" [[59; 62; 63]]
                   [[0; 0; 0; 0; 0; 0; 1; 0; 0; 0]];
                 upload_data "/tmp/tmp0" "sagemaker-us-east-1-023375022819"
                   "data/DEMO-keras-cifar10/train"])
    by (apply list_elem_of_further, list_elem_of_here).
  split; [exact Hin |].
  apply (archive_rows_one_hot (H := Demo.platform 0) "train" [[59; 62; 63]] [6] []
           (inr "s3://sagemaker-us-east-1-023375022819/data/DEMO-keras-cifar10/train")
           _ _ _ _ eq_refl Hin).
Defined.

Lemma one_hot_row_class k label1 label2 :
  0 < k ->
  one_hot_row k label1 = one_hot_row k label2 ->
  label1 `mod` k = label2 `mod` k.
Proof.
  intros Hk Heq.
  destruct (one_hot_row_valid k label1 Hk) as (_ & _ & Hone).
  pose proof (Z.mod_pos_bound label1 k Hk) as Hmod.
  rewrite Heq in Hone. unfold one_hot_row in Hone.
  rewrite list_lookup_fmap, lookup_seqZ_lt in Hone by lia. cbn in Hone.
  rewrite Z2Nat.id in Hone by lia.
  destruct (Z.eqb_spec (0 + label1 `mod` k) (label2 `mod` k)); [lia | discriminate].
Qed.

Lemma rows_same_classes k y1 y2 encoded :
  0 < k ->
  Keras.rows k y1 = inr encoded ->
  Keras.rows k y2 = inr encoded ->
  map (fun label => label `mod` k) y1 = map (fun label => label `mod` k) y2 /\
  Forall (fun label => label < k) y1 /\ Forall (fun label => label < k) y2.
Proof.
  intros Hk H1 H2. apply rows_inr in H1. apply rows_inr in H2.
  revert y2 H2. induction H1 as [|label1 row y1 enc [Hlt1 ->] _ IH]; intros y2 H2.
  - inversion H2; subst. now repeat split.
  - inversion H2 as [|label2 row' y2' enc' [Hlt2 Hrow] Hrest]; subst.
    destruct (IH _ Hrest) as (Hmap & Hy1 & Hy2).
    split; [| split; constructor; assumption].
    cbn [map]. f_equal; [now apply one_hot_row_class | exact Hmap].
Qed.

Lemma map_mod_small k (y : list Z) :
  Forall (fun label => 0 <= label) y ->
  Forall (fun label => label < k) y ->
  map (fun label => label `mod` k) y = y.
Proof.
  induction 1 as [|label y Hpos _ IH]; intros Hlt; [reflexivity |].
  inversion Hlt as [|? ? Hlabel Hrest]; subst. cbn [map].
  now rewrite IH, Z.mod_small by (assumption || lia).
Qed.

(** X4: an archive determines the classes of the labels it was made
    from: two packagings that write the same encoded labels had labels
    that agree modulo [NUM_CLASSES], and had the same labels when no label
    was negative.  A negative label is not told apart from its class: -1
    and 9 are encoded alike. *)
Theorem archive_determines_labels `{Platform}
    (channel1 channel2 : string) (x1 x2 : ndarray) (y1 y2 : list Z)
    (tr1 tr2 : trace) (r1 r2 : exn + string) (evs1 evs2 : trace)
    (file1 file2 : string) (x1' x2' encoded : ndarray) :
  upload_channel channel1 x1 y1 tr1 = (r1, tr1 ++ evs1) ->
  savez_compressed file1 x1' encoded ∈ evs1 ->
  upload_channel channel2 x2 y2 tr2 = (r2, tr2 ++ evs2) ->
  savez_compressed file2 x2' encoded ∈ evs2 ->
  map (fun label => label `mod` NUM_CLASSES) y1 =
    map (fun label => label `mod` NUM_CLASSES) y2 /\
  (Forall (fun label => 0 <= label) y1 ->
   Forall (fun label => 0 <= label) y2 -> y1 = y2) /\
  Keras.to_categorical [-1] NUM_CLASSES = Keras.to_categorical [9] NUM_CLASSES.
Proof.
  intros Hrun1 Hin1 Hrun2 Hin2.
  destruct (upload_channel_saved _ _ _ _ _ _ _ _ _ Hrun1 Hin1) as [_ Hrows1].
  destruct (upload_channel_saved _ _ _ _ _ _ _ _ _ Hrun2 Hin2) as [_ Hrows2].
  destruct (rows_same_classes NUM_CLASSES y1 y2 encoded) as (Hmap & Hlt1 & Hlt2);
    [unfold NUM_CLASSES; lia | assumption .. |].
  split; [exact Hmap |]. split; [| reflexivity].
  intros Hpos1 Hpos2.
  now rewrite <- (map_mod_small NUM_CLASSES y1), <- (map_mod_small NUM_CLASSES y2).
Qed.

Lemma archive_determines_labels_witness :
  exists r1 r2 evs1 evs2 file encoded,
    upload_channel (H := Demo.platform 0) "train" [[1]; [2]] [6; 9] [] =
      (r1, [] ++ evs1) /\
    savez_compressed file [[1]; [2]] encoded ∈ evs1 /\
    upload_channel (H := Demo.platform 0) "test" [[1]; [2]] [6; -1] [] =
      (r2, [] ++ evs2) /\
    savez_compressed file [[1]; [2]] encoded ∈ evs2 /\
    map (fun label => label `mod` NUM_CLASSES) [6; 9] =
      map (fun label => label `mod` NUM_CLASSES) [6; -1].
Proof.
  assert (Hrun1 : upload_channel (H := Demo.platform 0) "train" [[1]; [2]] [6; 9] [] =
            (inr "s3://sagemaker-us-east-1-023375022819/data/DEMO-keras-cifar10/train",
             [] ++ [tempfile_mkdtemp;
                    savez_compressed "/tmp/tmp0/cifar-10-npz-compressed.npz" [[1]; [2]]
                      [[0; 0; 0; 0; 0; 0; 1; 0; 0; 0]; [0; 0; 0; 0; 0; 0; 0; 0; 0; 1]];
                    upload_data "/tmp/tmp0" "sagemaker-us-east-1-023375022819"
                      "data/DEMO-keras-cifar10/train"]))
    by (vm_compute; reflexivity).
  assert (Hrun2 : upload_channel (H := Demo.platform 0) "test" [[1]; [2]] [6; -1] [] =
            (inr "s3://sagemaker-us-east-1-023375022819/data/DEMO-keras-cifar10/test",
             [] ++ [tempfile_mkdtemp;
                    savez_compressed "/tmp/tmp0/cifar-10-npz-compressed.npz" [[1]; [2]]
                      [[0; 0; 0; 0; 0; 0; 1; 0; 0; 0]; [0; 0; 0; 0; 0; 0; 0; 0; 0; 1]];
                    upload_data "/tmp/tmp0" "sagemaker-us-east-1-023375022819"
                      "data/DEMO-keras-cifar10/test"]))
    by (vm_compute; reflexivity).
  eexists _, _, _, _, _, _.
  split; [exact Hrun1 |].
  split; [apply list_elem_of_further, list_elem_of_here |].
  split; [exact Hrun2 |].
  split; [apply list_elem_of_further, list_elem_of_here |].
  exact (proj1 (archive_determines_labels (H := Demo.platform 0)
                  _ _ _ _ _ _ _ _ _ _ _ _ _ _ _ _ _
                  Hrun1 (list_elem_of_further _ _ _ (list_elem_of_here _ _))
                  Hrun2 (list_elem_of_further _ _ _ (list_elem_of_here _ _)))).
Defined.

(** ** Packaging: upload only after a successful save *)

Lemma prefix_append (p s : string) : String.prefix p (p +:+ s) = true.
Proof.
  induction p as [|c p IH]; [now destruct s |].
  change (String c p +:+ s) with (String c (p +:+ s)). cbn [String.prefix].
  destruct (ascii_dec c c) as [_ | Hne]; [exact IH | now destruct Hne].
Qed.

Lemma os_path_join_relative (a b : string) :
  String.prefix "/" b = false ->
  String.prefix a (os_path_join a b) = true.
Proof.
  intros Hrel. unfold os_path_join. rewrite Hrel.
  destruct (String.eqb a "" || ends_with_slash a); apply prefix_append.
Qed.

(** X5: whenever packaging reaches the upload call, the labels were
    encoded, the temporary directory was created, and the archive was
    saved without error into that directory; the directory uploaded is the
    one that holds the archive, the three calls are the only ones made, and
    the outcome of packaging is what the upload call answered, a location
    or an exception. *)
Theorem upload_after_save `{Platform}
    (channel_name : string) (x : ndarray) (y : list Z) (tr : trace)
    (r : exn + string) (evs : trace) (path bucket' key_prefix : string) :
  upload_channel channel_name x y tr = (r, tr ++ evs) ->
  upload_data path bucket' key_prefix ∈ evs ->
  exists encoded,
    Keras.to_categorical y NUM_CLASSES = inr encoded /\
    mkdtemp tr = inr path /\
    savez (os_path_join path "cifar-10-npz-compressed.npz") x encoded
      (tr ++ [tempfile_mkdtemp]) = inr tt /\
    String.prefix path (os_path_join path "cifar-10-npz-compressed.npz") = true /\
    evs = [tempfile_mkdtemp;
           savez_compressed (os_path_join path "cifar-10-npz-compressed.npz") x encoded;
           upload_data path bucket' key_prefix] /\
    r = uploaded path bucket' key_prefix
          (tr ++ [tempfile_mkdtemp;
                  savez_compressed (os_path_join path "cifar-10-npz-compressed.npz")
                    x encoded]).
Proof.
  rewrite upload_channel_run. intros Hrun Hin.
  destruct (Keras.to_categorical y NUM_CLASSES) as [e|encoded].
  { new_events Hrun evs. inversion Hin. }
  exists encoded. split; [reflexivity |].
  destruct (mkdtemp tr) as [e|file_path]; cbv zeta in Hrun.
  { new_events Hrun evs.
    repeat (apply elem_of_cons in Hin as [Hin | Hin]);
      try discriminate Hin; now inversion Hin. }
  destruct (savez _ x encoded _) as [e|[]] eqn:Hsave.
  { new_events Hrun evs.
    repeat (apply elem_of_cons in Hin as [Hin | Hin]);
      try discriminate Hin; now inversion Hin. }
  injection Hrun as <- Hevs. apply app_inv_head in Hevs. subst evs.
  repeat (apply elem_of_cons in Hin as [Hin | Hin]);
    try discriminate Hin; try (now inversion Hin).
  injection Hin as -> -> ->.
  split; [reflexivity |]. split; [exact Hsave |].
  split; [now apply os_path_join_relative |]. now split.
Qed.

Lemma upload_after_save_witness :
  exists r evs,
    upload_channel (H := Demo.platform 0) "train" [[59; 62; 63]] [6] [] = (r, [] ++ evs) /\
    upload_data "/tmp/tmp0" "sagemaker-us-east-1-023375022819"
      "data/DEMO-keras-cifar10/train" ∈ evs /\
    exists encoded,
      Keras.to_categorical [6] NUM_CLASSES = inr encoded /\
      mkdtemp (Platform := Demo.platform 0) [] = inr "/tmp/tmp0" /\
      evs = [tempfile_mkdtemp;
             savez_compressed (os_path_join "/tmp/tmp0" "cifar-10-npz-compressed.npz")
               [[59; 62; 63]] encoded;
             upload_data "/tmp/tmp0" "sagemaker-us-east-1-023375022819"
               "data/DEMO-keras-cifar10/train"].
Proof.
  assert (Hrun : upload_channel (H := Demo.platform 0) "train" [[59; 62; 63]] [6] [] =
            (inr "s3://sagemaker-us-east-1-023375022819/data/DEMO-keras-cifar10/train",
             [] ++ [tempfile_mkdtemp;
                    savez_compressed "/tmp/tmp0/cifar-10-npz-compressed.npz" [[59; 62; 63]]
                      [[0; 0; 0; 0; 0; 0; 1; 0; 0; 0]];
                    upload_data "/tmp/tmp0" "sagemaker-us-east-1-023375022819"
                      "data/DEMO-keras-cifar10/train"]))
    by (vm_compute; reflexivity).
  eexists _, _. split; [exact Hrun |].
  assert (Hin : upload_data "/tmp/tmp0" "sagemaker-us-east-1-023375022819"
                  "data/DEMO-keras-cifar10/train" ∈
                [tempfile_mkdtemp;
                 savez_compressed "/tmp/tmp0/cifar-10-npz-compressed.npz" [[59; 62; 63]]
                   [[0; 0; 0; 0; 0; 0; 1; 0; 0; 0]];
                 upload_data "/tmp/tmp0" "sagemaker-us-east-1-023375022819"
                   "data/DEMO-keras-cifar10/train"])
    by (do 2 apply list_elem_of_further; apply list_elem_of_here).
  split; [exact Hin |].
  destruct (upload_after_save (H := Demo.platform 0) _ _ _ _ _ _ _ _ _ Hrun Hin)
    as (encoded & Henc & Hdir & _ & _ & Hevs & _).
  exists encoded. now repeat split.
Defined.

(** ** The data cell: partial failure and the order of the calls *)

(** The calls [upload_channel] adds: none to the tuning service, and
    uploads only under the channel's own key prefix. *)
Lemma upload_channel_events `{Platform} channel_name x y tr :
  exists r evs,
    upload_channel channel_name x y tr = (r, tr ++ evs) /\
    Forall (fun e => is_create e = false) evs /\
    (forall path b k,
       upload_data path b k ∈ evs ->
       k = "data/DEMO-keras-cifar10/" +:+ channel_name) /\
    (forall location,
       r = inr location ->
       exists path,
         upload_data path bucket ("data/DEMO-keras-cifar10/" +:+ channel_name) ∈ evs).
Proof.
  rewrite upload_channel_run.
  destruct (Keras.to_categorical y NUM_CLASSES) as [e|encoded].
  { exists (inl e), []. repeat split; [constructor | | discriminate].
    intros ? ? ? Hin. inversion Hin. }
  destruct (mkdtemp tr) as [e|file_path]; cbv zeta;
    [| destruct (savez _ x encoded _) as [e|[]]];
    eexists _, _; (split; [reflexivity |]);
    (split; [repeat constructor |]);
    (split;
     [intros path b k Hin;
      repeat (apply elem_of_cons in Hin as [Hin | Hin]);
      try discriminate Hin; now inversion Hin |]);
    try discriminate.
  intros location _. exists file_path.
  do 2 apply list_elem_of_further. apply list_elem_of_here.
Qed.

(** X6: the data cell stops at the first failure and undoes nothing.
    When loading the dataset fails nothing is packaged.  When packaging the
    train split fails the test split is never packaged: every upload made
    so far went under the train key.  When packaging the test split fails
    after the train split succeeded, the cell raises that exception and
    returns no locations, while the train archive stays uploaded. *)
Theorem upload_training_data_failure `{Platform} (tr : trace) :
  (forall e,
     load_data tr = inl e ->
     upload_training_data tr = (inl e, tr ++ [cifar10_load_data])) /\
  (forall x_train y_train x_test y_test e tr1,
     load_data tr = inr ((x_train, y_train), (x_test, y_test)) ->
     upload_channel "train" x_train y_train (tr ++ [cifar10_load_data]) = (inl e, tr1) ->
     upload_training_data tr = (inl e, tr1) /\
     exists evs,
       tr1 = tr ++ cifar10_load_data :: evs /\
       forall path b k,
         upload_data path b k ∈ evs -> k = "data/DEMO-keras-cifar10/train") /\
  (forall x_train y_train x_test y_test train_location tr1 e tr2,
     load_data tr = inr ((x_train, y_train), (x_test, y_test)) ->
     upload_channel "train" x_train y_train (tr ++ [cifar10_load_data]) =
       (inr train_location, tr1) ->
     upload_channel "test" x_test y_test tr1 = (inl e, tr2) ->
     upload_training_data tr = (inl e, tr2) /\
     exists path,
       upload_data path bucket "data/DEMO-keras-cifar10/train" ∈ tr2).
Proof.
  unfold upload_training_data. run. split; [| split].
  - now intros e ->.
  - intros x_train y_train x_test y_test e tr1 -> Htrain.
    rewrite Htrain. split; [reflexivity |].
    destruct (upload_channel_events "train" x_train y_train (tr ++ [cifar10_load_data]))
      as (r & evs & Hrun & _ & Hkeys & _).
    rewrite Htrain in Hrun. injection Hrun as _ ->.
    exists evs. split; [now rewrite <- app_assoc |]. exact Hkeys.
  - intros x_train y_train x_test y_test train_location tr1 e tr2 -> Htrain Htest.
    rewrite Htrain, Htest. split; [reflexivity |].
    destruct (upload_channel_events "train" x_train y_train (tr ++ [cifar10_load_data]))
      as (r & evs & Hrun & _ & _ & Hup).
    rewrite Htrain in Hrun. injection Hrun as <- ->.
    destruct (Hup train_location eq_refl) as [path Hpath].
    destruct (upload_channel_events "test" x_test y_test
                ((tr ++ [cifar10_load_data]) ++ evs))
      as (r' & evs' & Hrun' & _).
    rewrite Htest in Hrun'. injection Hrun' as _ ->.
    exists path. rewrite !elem_of_app. left. now right.
Qed.

Lemma upload_training_data_failure_witness :
  load_data (Platform := Faulty.platform) [] =
    inr (([[59; 62; 63]], [6]), ([[158; 112; 49]], [12])) /\
  upload_channel (H := Faulty.platform) "train" [[59; 62; 63]] [6]
    ([] ++ [cifar10_load_data]) =
    (inr "s3://sagemaker-us-east-1-023375022819/data/DEMO-keras-cifar10/train",
     [cifar10_load_data; tempfile_mkdtemp;
      savez_compressed "/tmp/tmp1/cifar-10-npz-compressed.npz" [[59; 62; 63]]
        [[0; 0; 0; 0; 0; 0; 1; 0; 0; 0]];
      upload_data "/tmp/tmp1" "sagemaker-us-east-1-023375022819"
        "data/DEMO-keras-cifar10/train"]) /\
  upload_training_data (H := Faulty.platform) [] =
    (inl IndexError,
     [cifar10_load_data; tempfile_mkdtemp;
      savez_compressed "/tmp/tmp1/cifar-10-npz-compressed.npz" [[59; 62; 63]]
        [[0; 0; 0; 0; 0; 0; 1; 0; 0; 0]];
      upload_data "/tmp/tmp1" "sagemaker-us-east-1-023375022819"
        "data/DEMO-keras-cifar10/train"]).
Proof.
  assert (Hload : load_data (Platform := Faulty.platform) [] =
                    inr (([[59; 62; 63]], [6]), ([[158; 112; 49]], [12])))
    by reflexivity.
  assert (Htrain : upload_channel (H := Faulty.platform) "train" [[59; 62; 63]] [6]
                     ([] ++ [cifar10_load_data]) =
            (inr "s3://sagemaker-us-east-1-023375022819/data/DEMO-keras-cifar10/train",
             [cifar10_load_data; tempfile_mkdtemp;
              savez_compressed "/tmp/tmp1/cifar-10-npz-compressed.npz" [[59; 62; 63]]
                [[0; 0; 0; 0; 0; 0; 1; 0; 0; 0]];
              upload_data "/tmp/tmp1" "sagemaker-us-east-1-023375022819"
                "data/DEMO-keras-cifar10/train"]))
    by (vm_compute; reflexivity).
  split; [exact Hload |]. split; [exact Htrain |].
  apply (proj2 (proj2 (upload_training_data_failure (H := Faulty.platform) []))
           _ _ _ _ _ _ IndexError _ Hload Htrain).
  vm_compute. reflexivity.
Defined.



(** ** The training job definition: which channels it needs and takes *)

(** X8: the training job definition needs both channel names: without
    ["train"] it raises [KeyError] for ["train"], with ["train"] but
    without ["test"] it raises [KeyError] for ["test"].  When both are
    present it has exactly two input channels, named train and test, with
    the two locations; any other channel in the map is left out of the
    tuning job. *)
Theorem training_job_definition_channel_keys `{Platform}
    (static : gmap string Py.value) (channels : gmap string string) :
  (channels !! "train" = None ->
   training_job_definition_with static channels = inl (KeyError "train")) /\
  (is_Some (channels !! "train") ->
   channels !! "test" = None ->
   training_job_definition_with static channels = inl (KeyError "test")) /\
  (forall definition,
     training_job_definition_with static channels = inr definition ->
     exists train test,
       channels !! "train" = Some train /\
       channels !! "test" = Some test /\
       TrainingJobDefinition.InputDataConfig definition =
         [input_channel "train" train; input_channel "test" test] /\
       forall channel_name,
         channel_name <> "train" ->
         channel_name <> "test" ->
         input_location definition channel_name = None).
Proof.
  unfold training_job_definition_with, subscript. split; [| split].
  - now intros ->.
  - intros [train ->] ->. reflexivity.
  - intros definition.
    destruct (channels !! "train") as [train|]; [| discriminate].
    destruct (channels !! "test") as [test|]; [| discriminate].
    intros [= <-]. exists train, test. do 3 (split; [reflexivity |]).
    intros channel_name Htrain Htest. unfold input_location.
    cbn [TrainingJobDefinition.InputDataConfig List.find input_channel
           Channel.ChannelName].
    replace (String.eqb "train" channel_name) with false
      by (symmetry; apply String.eqb_neq; congruence).
    replace (String.eqb "test" channel_name) with false
      by (symmetry; apply String.eqb_neq; congruence).
    reflexivity.
Qed.

Lemma training_job_definition_channel_keys_witness :
  dict [("train", "s3://b/train"); ("validation", "s3://b/validation")] !! "test" =
    (None : option string) /\
  training_job_definition_with (H := Demo.platform 0) static_hyperparameters
    (dict [("train", "s3://b/train"); ("validation", "s3://b/validation")]) =
    inl (KeyError "test").
Proof.
  assert (Htest : dict [("train", "s3://b/train"); ("validation", "s3://b/validation")]
                    !! "test" = (None : option string))
    by (vm_compute; reflexivity).
  split; [exact Htest |].
  apply (training_job_definition_channel_keys (H := Demo.platform 0));
    [vm_compute; eauto | exact Htest].
Defined.

(** X9: the tuning cells reach the service only with both channels.  When
    ["train"] or ["test"] is missing from the map, [launch] raises
    [KeyError] for the first missing name after it has read the clock, and
    makes no call to the tuning service. *)
Theorem launch_missing_channel `{Platform}
    (channels : gmap string string) (tr : trace) :
  channels !! "train" = None \/ channels !! "test" = None ->
  exists key,
    (key = "train" \/ key = "test") /\
    channels !! key = None /\
    launch channels tr = (inl (KeyError key), tr ++ [time_gmtime]).
Proof.
  intros Hmissing.
  destruct (tuning_job_name_run tr) as (name & _ & Hname).
  unfold launch. rewrite (bind_inr _ _ _ _ _ Hname).
  unfold bind, lift, training_job_definition, training_job_definition_with, subscript.
  destruct (channels !! "train") as [train|] eqn:Htrain.
  - destruct (channels !! "test") as [test|] eqn:Htest.
    + now destruct Hmissing.
    + exists "test". now repeat split; [right | ..].
  - exists "train". now repeat split; [left | ..].
Qed.

Lemma launch_missing_channel_witness :
  (dict [("train", "s3://b/train")] !! "train" = (None : option string) \/
   dict [("train", "s3://b/train")] !! "test" = (None : option string)) /\
  exists key,
    launch (H := Demo.platform 0) (dict [("train", "s3://b/train")]) [] =
      (inl (KeyError key), [] ++ [time_gmtime]).
Proof.
  assert (Hmissing : dict [("train", "s3://b/train")] !! "train" = (None : option string) \/
                     dict [("train", "s3://b/train")] !! "test" = (None : option string))
    by (right; vm_compute; reflexivity).
  split; [exact Hmissing |].
  destruct (launch_missing_channel (H := Demo.platform 0) _ [] Hmissing)
    as (key & _ & _ & Hrun).
  now exists key.
Defined.

(** ** The job name: its shape *)

Lemma digit_is_name_char n : 0 <= n < 10 -> is_name_char (Time.digit n) = true.
Proof.
  intros Hn. unfold is_name_char, Time.digit. cbv zeta.
  rewrite N_ascii_embedding by lia.
  replace (48 <=? 48 + Z.to_N n)%N with true by (symmetry; apply N.leb_le; lia).
  replace (48 + Z.to_N n <=? 57)%N with true by (symmetry; apply N.leb_le; lia).
  reflexivity.
Qed.

Lemma two_digits_name_chars n :
  0 <= n < 100 ->
  exists a b,
    Time.two_digits n = String a (String b "") /\
    is_name_char a = true /\ is_name_char b = true.
Proof.
  intros Hn. rewrite two_digits_small by assumption.
  eexists _, _. split; [reflexivity |].
  split; apply digit_is_name_char; Z.to_euclidean_division_equations; lia.
Qed.

(** X10: for every creation time the job name exists and has exactly 31
    characters, each a letter, a digit or a hyphen: the 20 characters of
    the prefix and four two-digit fields separated by hyphens. *)
Theorem tuning_job_name_shape (now : Z) :
  exists name,
    tuning_job_name_at now = inr name /\
    String.length name = 31%nat /\
    Forall (fun c => is_name_char c = true) (list_ascii_of_string name).
Proof.
  rewrite tuning_job_name_at_stamp. cbv zeta.
  destruct (gmtime_range now) as (Hd & Hh & Hm & Hs).
  destruct (two_digits_name_chars (Time.tm_mday (Time.gmtime now)))
    as (d1 & d2 & -> & Hd1 & Hd2); [lia |].
  destruct (two_digits_name_chars (Time.tm_hour (Time.gmtime now)))
    as (h1 & h2 & -> & Hh1 & Hh2); [lia |].
  destruct (two_digits_name_chars (Time.tm_min (Time.gmtime now)))
    as (m1 & m2 & -> & Hm1 & Hm2); [lia |].
  destruct (two_digits_name_chars (Time.tm_sec (Time.gmtime now)))
    as (s1 & s2 & -> & Hs1 & Hs2); [lia |].
  eexists. split; [reflexivity |]. split; [reflexivity |].
  cbn. repeat (constructor; [assumption || reflexivity |]). constructor.
Qed.

(** ** The job name: no collision within 28 days *)

Lemma chain_spec f ok start n :
  chain f ok (f (start - 1)) start n = true ->
  forall i, start <= i < start + Z.of_nat n -> ok (f (i - 1)) (f i) = true.
Proof.
  revert start. induction n as [|n IH]; intros start Hchain i Hi; [lia |].
  cbn [chain] in Hchain. cbv zeta in Hchain.
  apply andb_prop in Hchain as [Hhead Htail].
  destruct (Z.eq_dec i start) as [-> | Hne]; [exact Hhead |].
  apply (IH (start + 1)); [| lia].
  now replace (start + 1 - 1) with start by lia.
Qed.

(** Checked by evaluation over the 146097 days of an era. *)
Lemma mday_chain :
  chain mday_of_doe next_mday_ok (mday_of_doe (1 - 1)) 1 (Z.to_nat 146096) = true.
Proof. vm_compute. reflexivity. Qed.

Lemma civil_mday days :
  (Time.civil_from_days days).2 = mday_of_doe ((days + 719468) `mod` 146097).
Proof.
  unfold Time.civil_from_days, mday_of_doe. cbv zeta. cbn [snd].
  now replace (days + 719468 - (days + 719468) / 146097 * 146097)
    with ((days + 719468) `mod` 146097)
    by (rewrite Z.mod_eq by lia; lia).
Qed.

Lemma mday_next days :
  next_mday_ok (Time.civil_from_days days).2 (Time.civil_from_days (days + 1)).2 = true.
Proof.
  rewrite !civil_mday.
  set (doe := (days + 719468) `mod` 146097).
  assert (Hdoe : 0 <= doe < 146097) by (apply Z.mod_pos_bound; lia).
  destruct (Z.eq_dec doe 146096) as [Hlast | Hnot].
  - replace ((days + 1 + 719468) `mod` 146097) with 0
      by (subst doe; Z.to_euclidean_division_equations; lia).
    rewrite Hlast. vm_compute. reflexivity.
  - replace ((days + 1 + 719468) `mod` 146097) with (doe + 1)
      by (subst doe; Z.to_euclidean_division_equations; lia).
    replace doe with (doe + 1 - 1) at 1 by lia.
    apply (chain_spec _ _ 1 (Z.to_nat 146096) mday_chain). lia.
Qed.

(** Within 27 days the day of the month does not come back. *)
Lemma mday_window days k :
  1 <= k <= 27 ->
  (Time.civil_from_days (days + k)).2 <> (Time.civil_from_days days).2.
Proof.
  intros Hk.
  pose proof (civil_day_range days) as Hrange.
  assert (Hinv : forall i : nat,
            (i <= 27)%nat ->
            (Time.civil_from_days (days + Z.of_nat i)).2 =
              (Time.civil_from_days days).2 + Z.of_nat i \/
            exists j, 1 <= j <= Z.of_nat i /\
              (Time.civil_from_days (days + Z.of_nat i)).2 = Z.of_nat i - j + 1 /\
              29 - j <= (Time.civil_from_days days).2).
  { induction i as [|i IH]; intros Hi.
    - left. now rewrite !Z.add_0_r.
    - pose proof (mday_next (days + Z.of_nat i)) as Hnext.
      replace (days + Z.of_nat i + 1) with (days + Z.of_nat (S i)) in Hnext by lia.
      unfold next_mday_ok in Hnext.
      apply orb_prop in Hnext as [Hgrow | Hreset].
      + apply Z.eqb_eq in Hgrow.
        destruct IH as [Hsame | (j & Hj & Hafter & Hfirst)]; [lia | left; lia |].
        right. exists j. lia.
      + apply andb_prop in Hreset as [Hone Hlong].
        apply Z.eqb_eq in Hone. apply Z.leb_le in Hlong.
        destruct IH as [Hsame | (j & Hj & Hafter & Hfirst)]; [lia | | lia].
        right. exists (Z.of_nat (S i)). lia. }
  destruct (Hinv (Z.to_nat k)) as [Hsame | (j & Hj & Hafter & Hfirst)]; [lia | |];
    rewrite Z2Nat.id in * by lia; lia.
Qed.

Lemma gmtime_fields now :
  Time.day_and_time (Time.gmtime now) =
    ((Time.civil_from_days (now / 86400)).2,
     (now `mod` 86400) / 3600,
     ((now `mod` 86400) `mod` 3600) / 60,
     (now `mod` 86400) `mod` 60).
Proof.
  unfold Time.gmtime.
  now destruct (Time.civil_from_days (now / 86400)) as [[y m] d].
Qed.

(** X11: two creation times less than 28 days apart never get the same
    job name.  The bound is sharp: 2019-02-01 00:00:00 and 2019-03-01
    00:00:00, exactly 28 days apart, get the same name. *)
Theorem tuning_job_names_28_days :
  (forall now1 now2,
     0 < now2 - now1 < 28 * 86400 ->
     tuning_job_name_at now1 <> tuning_job_name_at now2) /\
  (1551398400 - 1548979200 = 28 * 86400 /\
   Time.gmtime 1548979200 = Time.Make 2019 2 1 0 0 0 /\
   Time.gmtime 1551398400 = Time.Make 2019 3 1 0 0 0 /\
   tuning_job_name_at 1548979200 = tuning_job_name_at 1551398400).
Proof.
  split; [| now repeat split].
  intros now1 now2 Hgap Hsame.
  apply tuning_job_name_at_inj in Hsame.
  rewrite !gmtime_fields in Hsame.
  injection Hsame as Hday Hhour Hmin Hsec.
  assert (Hrem : now1 `mod` 86400 = now2 `mod` 86400)
    by (Z.to_euclidean_division_equations; lia).
  assert (Hdays : exists k, 1 <= k <= 27 /\ now2 / 86400 = now1 / 86400 + k).
  { exists (now2 / 86400 - now1 / 86400). split; [| lia].
    clear Hday Hhour Hmin Hsec. Z.to_euclidean_division_equations. lia. }
  destruct Hdays as (k & Hk & Hdays). rewrite Hdays in Hday.
  now apply (mday_window (now1 / 86400) k Hk).
Qed.

Lemma tuning_job_names_28_days_witness :
  0 < 1569350246 - 1567017446 < 28 * 86400 /\
  tuning_job_name_at 1567017446 <> tuning_job_name_at 1569350246.
Proof.
  assert (Hgap : 0 < 1569350246 - 1567017446 < 28 * 86400) by lia.
  split; [exact Hgap |].
  now apply (proj1 tuning_job_names_28_days).
Defined.

(** ** The cells in order *)









(** ** Image names *)

(** X14: for one repository, different version tags give different
    image names, so images built from different TensorFlow versions never
    share a name.  Across repositories the name does not determine the
    pair: a tag that contains [:tensorflow-] can be read as part of the
    repository. *)
Theorem get_image_name_tag (ecr_repository tag1 tag2 : string) :
  (get_image_name ecr_repository tag1 = get_image_name ecr_repository tag2 ->
   tag1 = tag2) /\
  get_image_name "repo" "a:tensorflow-b" = get_image_name "repo:tensorflow-a" "b".
Proof.
  split; [| reflexivity].
  unfold get_image_name. intros Heq.
  apply String.app_inj in Heq. now apply (String.app_inj ":tensorflow-") in Heq.
Qed.

Lemma get_image_name_tag_witness :
  get_image_name "repo" "1.10.1" = get_image_name "repo" "1.10.1" /\
  "1.10.1" = "1.10.1".
Proof.
  assert (Heq : get_image_name "repo" "1.10.1" = get_image_name "repo" "1.10.1")
    by reflexivity.
  split; [exact Heq |].
  exact (proj1 (get_image_name_tag "repo" "1.10.1" "1.10.1") Heq).
Defined.
